(** * FluxMac: PythonBridge/robust_download.py

    A shallow embedding of the download supervisor: the size table
    ([get_model_size_gb]), the background sampler
    ([monitor_download_progress]), the supervisor itself
    ([download_model_robust]) and the command-line entry point ([main]).

    Conventions.
    - Python [float] values are idealised as exact rationals ([Q]); every
      comparison and [min] of the source is the one on [Q].  None of the
      statements below depends on a rounding step of binary64.
    - Python [int] values are [Z], strings are [string].
    - Everything the program does to the outside world is recorded, in
      program order, as a list of [event]s; what the outside world answers
      is read from a [world] record.
    - [try ... except Exception] is an error monad over that event log. *)

From Stdlib Require Import List String Ascii Bool ZArith QArith Qminmax Qabs.
From Stdlib Require Import Lia Lqa DecimalString Sorted Qround.
Import ListNotations.

Local Open Scope string_scope.
Local Open Scope Z_scope.

(** ** Small helpers standing for Python built-ins *)

(** [d.get(key, default)] on a dict literal, kept as the association list
    of its items. *)
Fixpoint dict_get {V : Type} (d : list (string * V)) (key : string) : option V :=
  match d with
  | [] => None
  | (k, v) :: rest => if String.eqb k key then Some v else dict_get rest key
  end.

Definition dict_get_default {V : Type} (d : list (string * V)) (key : string) (default : V) : V :=
  match dict_get d key with
  | Some v => v
  | None => default
  end.

(** [str(n)] for an [int]. *)
Definition str_of_int (n : Z) : string :=
  NilZero.string_of_int (Z.to_int n).

(** [a < b] on floats. *)
Definition Qltb (a b : Q) : bool :=
  match (a ?= b)%Q with
  | Lt => true
  | _ => false
  end.

(** Rounding of a rational to the nearest integer, ties to even: the rule
    of [format(x, ".2f")] when applied to [100 * x]. *)
Definition round_half_even (x : Q) : Z :=
  let n := Qnum x in
  let d := Zpos (Qden x) in
  let q := n / d in
  let r := n mod d in
  match 2 * r ?= d with
  | Lt => q
  | Gt => q + 1
  | Eq => if Z.even q then q else q + 1
  end.

(** [f"{x:.2f}"]. *)
Definition format_2f (x : Q) : string :=
  let sign := if Qltb x 0 then "-" else "" in
  let hundredths := round_half_even (Qabs x * 100) in
  let frac := hundredths mod 100 in
  sign ++ str_of_int (hundredths / 100) ++ "."
       ++ (if frac <? 10 then "0" else "") ++ str_of_int frac.

(** ** SizeEstimator *)

Definition model_sizes : list (string * Q) :=
  [ ("schnell", 31.4%Q); ("dev", 4.2%Q) ].

(** [get_model_size_gb]: the expected model size in GB. *)
Definition get_model_size_gb (model_name : string) : Q :=
  dict_get_default model_sizes model_name 2.1%Q.

(** Lines 24-25 of the source: the size in bytes the sampler scales by. *)
Definition expected_size_bytes (model_name : string) : Q :=
  (get_model_size_gb model_name * 1024 * 1024 * 1024)%Q.

(** ** Events *)

Inductive event : Type :=
| Print (line : string)                       (* print(line) *)
| PrintProgress (progress : Q)                (* print(f"PROGRESS: {progress:.2f}") *)
| Sleep (seconds : Q)                         (* time.sleep(seconds) *)
| Mkdir (path : string)                       (* path.mkdir(parents=True, exist_ok=True) *)
| ThreadStart (model_name cache_dir : string) (* progress_thread.start() *)
| Popen (cmd : list string)                   (* subprocess.Popen(cmd, ...) *)
| Terminate                                   (* process.terminate() *)
| Communicate.                                (* process.communicate() *)

Definition progress_line (progress : Q) : string :=
  "PROGRESS: " ++ format_2f progress.

(** The line an event writes to standard output, if it writes one. *)
Definition stdout_line (e : event) : option string :=
  match e with
  | Print line => Some line
  | PrintProgress progress => Some (progress_line progress)
  | _ => None
  end.

Fixpoint stdout (log : list event) : list string :=
  match log with
  | [] => []
  | e :: rest =>
      match stdout_line e with
      | Some line => line :: stdout rest
      | None => stdout rest
      end
  end.

(** ** ProgressMonitor *)

(** One file seen by [os.walk]: whether [file_path.exists()] holds at the
    moment it is tested, and its [st_size]. *)
Record file_entry : Type := {
  fe_exists : bool;
  fe_size : Z
}.

(** One candidate cache root: whether it exists and, per directory that
    [os.walk] visits below it, the files of that directory. *)
Record cache_root : Type := {
  root_exists : bool;
  root_walk : list (list file_entry)
}.

(** What one pass of the sampling loop meets: the three cache roots as they
    are on disk, or an exception raised somewhere during the scan. *)
Inductive sample : Type :=
| Scanned (cache_dirs : list cache_root)
| ScanRaised (msg : string).

Definition sum_files (files : list file_entry) (total_size : Z) : Z :=
  fold_left (fun acc f => if fe_exists f then acc + fe_size f else acc) files total_size.

Definition sum_walk (walk : list (list file_entry)) (total_size : Z) : Z :=
  fold_left (fun acc files => sum_files files acc) walk total_size.

Definition sum_cache_dirs (cache_dirs : list cache_root) : Z :=
  fold_left (fun acc root => if root_exists root then sum_walk (root_walk root) acc else acc)
            cache_dirs 0.

Definition progress_cap : Q := 0.95%Q.

(** The body of [while True:] in [monitor_download_progress]: the events of
    one pass and the value of [last_progress] after it. *)
Definition monitor_iteration (expected : Q) (last_progress : Q) (s : sample)
  : list event * Q :=
  match s with
  | Scanned cache_dirs =>
      let total_size := sum_cache_dirs cache_dirs in
      if 0 <? total_size then
        let progress := Qmin (inject_Z total_size / expected) progress_cap in
        if Qltb last_progress progress then
          ([PrintProgress progress; Sleep 2], progress)
        else ([Sleep 2], last_progress)
      else ([Sleep 2], last_progress)
  | ScanRaised msg =>
      ([Print ("PROGRESS_MONITOR_ERROR: " ++ msg); Sleep 5], last_progress)
  end.

(** The loop, run for as many passes as the host process lives. *)
Fixpoint monitor_loop (expected : Q) (last_progress : Q) (samples : list sample)
  : list event :=
  match samples with
  | [] => []
  | s :: rest =>
      let '(evs, last') := monitor_iteration expected last_progress s in
      evs ++ monitor_loop expected last' rest
  end.

Definition monitor_download_progress (model_name : string) (samples : list sample)
  : list event :=
  monitor_loop (expected_size_bytes model_name) 0 samples.

(** The value of [last_progress] after one pass. *)
Definition next_progress (expected : Q) (last_progress : Q) (s : sample) : Q :=
  snd (monitor_iteration expected last_progress s).

(** The value of [last_progress] once the passes [samples] are made. *)
Definition last_progress_after (expected : Q) (last_progress : Q) (samples : list sample) : Q :=
  fold_left (next_progress expected) samples last_progress.

(** A pass that sees no byte on disk: its scan sums to nothing, or raises. *)
Definition no_byte_seen (s : sample) : Prop :=
  match s with
  | Scanned cache_dirs => sum_cache_dirs cache_dirs = 0
  | ScanRaised _ => True
  end.

(** The fractions a log hands to [print(f"PROGRESS: {progress:.2f}")]. *)
Fixpoint emitted_fractions (log : list event) : list Q :=
  match log with
  | [] => []
  | PrintProgress p :: rest => p :: emitted_fractions rest
  | _ :: rest => emitted_fractions rest
  end.

(** ** The error monad of [try ... except Exception] *)

Inductive outcome (A : Type) : Type :=
| Done (a : A)           (* the call returns [a] *)
| Raised (msg : string)  (* an [Exception] [e] propagates, [str(e) = msg] *)
| Pending.               (* still inside the wait loop after the polls allowed *)

Arguments Done {A} a.
Arguments Raised {A} msg.
Arguments Pending {A}.

Definition M (A : Type) : Type := (list event * outcome A)%type.

Definition ret {A : Type} (a : A) : M A := ([], Done a).

Definition bind {A B : Type} (m : M A) (k : A -> M B) : M B :=
  match m with
  | (log, Done a) => let '(log', r) := k a in ((log ++ log')%list, r)
  | (log, Raised msg) => (log, Raised msg)
  | (log, Pending) => (log, Pending)
  end.

Definition emit (e : event) : M unit := ([e], Done tt).

Definition raise {A : Type} (msg : string) : M A := ([], Raised msg).

Definition try_except {A : Type} (body : M A) (handler : string -> M A) : M A :=
  match body with
  | (log, Raised msg) => let '(log', r) := handler msg in ((log ++ log')%list, r)
  | _ => body
  end.

Notation "x <- c ;; k" := (bind c (fun x => k))
  (at level 61, c at next level, right associativity).
Notation "c ;; k" := (bind c (fun _ => k))
  (at level 61, right associativity).

(** ** DownloadSupervisor *)

(** What the outside world answers to one run of the supervisor.  A call
    that can raise carries [Some msg] when it does ([msg] is [str(e)]). *)
Record world : Type := {
  cache_dir : string;                  (* str(Path.home() / '.cache' / 'mflux') *)
  mkdir_raises : option string;        (* cache_dir.mkdir(...) *)
  thread_start_raises : option string; (* progress_thread.start() *)
  popen_raises : option string;        (* subprocess.Popen(...) *)
  start_time : Q;                      (* time.time() before the loop *)
  poll : nat -> option Z;              (* process.poll() at the n-th loop test *)
  clock : nat -> Q;                    (* time.time() inside the n-th loop body *)
  communicate_result : string + (string * string)
                                       (* process.communicate(): raises, or (stdout, stderr) *)
}.

(** A call with a side effect: it raises, or the effect takes place. *)
Definition call (raises : option string) (e : event) : M unit :=
  match raises with
  | Some msg => raise msg
  | None => emit e
  end.

Definition model_mapping : list (string * string) :=
  [ ("schnell", "black-forest-labs/FLUX.1-schnell");
    ("dev", "black-forest-labs/FLUX.1-dev") ].

Definition timeout : Q := 7200.

(** How the [while process.poll() is None] loop is left. *)
Inductive loop_exit : Type :=
| Returned (value : bool)    (* [return value] from inside the loop *)
| Exited (returncode : Z).   (* the loop condition became false *)

Definition timed_out_line : string :=
  "DOWNLOAD_ERROR: Download timed out after 2 hours".

(** The wait loop, from its [i]-th test on, with [fuel] tests allowed. *)
Fixpoint wait_loop (w : world) (fuel : nat) (i : nat) : M loop_exit :=
  match fuel with
  | O => ([], Pending)
  | S fuel' =>
      match poll w i with
      | Some returncode => ret (Exited returncode)
      | None =>
          if Qltb timeout (clock w i - start_time w) then
            emit (Print timed_out_line) ;;
            emit Terminate ;;
            ret (Returned false)
          else
            emit (Sleep 5) ;;
            wait_loop w fuel' (S i)
      end
  end.

Definition download_cmd (huggingface_model local_dir : string) : list string :=
  [ "huggingface-cli"; "download";
    huggingface_model;
    "--local-dir"; local_dir;
    "--local-dir-use-symlinks"; "False";
    "--resume-download";
    "--quiet" ].

Definition unknown_model (model_name : string) : M bool :=
  emit (Print ("DOWNLOAD_ERROR: Unknown model " ++ model_name)) ;;
  ret false.

(** The code that follows the wait loop. *)
Definition conclude (w : world) (left : loop_exit) : M bool :=
  match left with
  | Returned value => ret value
  | Exited returncode =>
      if returncode =? 0 then
        emit (Print "PROGRESS: 1.0") ;;
        emit (Print "DOWNLOAD_COMPLETE") ;;
        ret true
      else
        match communicate_result w with
        | inl msg => raise msg
        | inr (out, err) =>
            emit Communicate ;;
            emit (Print ("DOWNLOAD_ERROR: Download failed with return code "
                         ++ str_of_int returncode)) ;;
            emit (Print ("STDOUT: " ++ out)) ;;
            emit (Print ("STDERR: " ++ err)) ;;
            ret false
        end
  end.

(** The part of the [try] block after the model has been resolved. *)
Definition run_download (w : world) (fuel : nat) (model_name huggingface_model : string)
  : M bool :=
  emit (Print "PROGRESS: 0.05") ;;
  emit (Print "Starting robust download with huggingface-cli...") ;;
  call (thread_start_raises w) (ThreadStart model_name (cache_dir w)) ;;
  emit (Print "PROGRESS: 0.1") ;;
  emit (Print "Initializing download...") ;;
  let cmd := download_cmd huggingface_model (cache_dir w ++ "/" ++ model_name) in
  emit (Print "PROGRESS: 0.2") ;;
  emit (Print "Executing download command...") ;;
  emit (Print ("Command: " ++ String.concat " " cmd)) ;;
  call (popen_raises w) (Popen cmd) ;;
  left <- wait_loop w fuel 0 ;;
  conclude w left.

(** [download_model_robust]. *)
Definition download_model_robust (w : world) (fuel : nat) (model_name : string) : M bool :=
  try_except
    (emit (Print "DOWNLOAD_START") ;;
     emit (Print ("Downloading model: " ++ model_name)) ;;
     call (mkdir_raises w) (Mkdir (cache_dir w)) ;;
     match dict_get model_mapping model_name with
     | Some huggingface_model =>
         if String.eqb huggingface_model "" then unknown_model model_name
         else run_download w fuel model_name huggingface_model
     | None => unknown_model model_name
     end)
    (fun msg =>
       emit (Print ("DOWNLOAD_ERROR: " ++ msg)) ;;
       ret false).

(** ** CLI driver *)

(** [main], on [sys.argv]; the value returned is the exit status of the
    process. *)
Definition main (w : world) (fuel : nat) (argv : list string) : M Z :=
  if negb (Nat.eqb (List.length argv) 2) then
    emit (Print "Usage: python robust_download.py <model_name>") ;;
    ret 1
  else
    let model_name := nth 1 argv "" in
    success <- download_model_robust w fuel model_name ;;
    if negb success then ret 1 else ret 0.

(** ** Observations on a log *)

Definition spawned (log : list event) : bool :=
  existsb (fun e => match e with Popen _ => true | _ => false end) log.

Definition monitor_started (log : list event) : bool :=
  existsb (fun e => match e with ThreadStart _ _ => true | _ => false end) log.

Definition terminated (log : list event) : bool :=
  existsb (fun e => match e with Terminate => true | _ => false end) log.

(** A terminal status token: a line that begins with [DOWNLOAD_COMPLETE]
    or with [DOWNLOAD_ERROR]. *)
Definition is_terminal (line : string) : bool :=
  String.prefix "DOWNLOAD_COMPLETE" line || String.prefix "DOWNLOAD_ERROR" line.

Definition terminal_tokens (log : list event) : list string :=
  filter is_terminal (stdout log).

(** The last [n] lines of standard output. *)
Definition final_lines (n : nat) (log : list event) : list string :=
  rev (firstn n (rev (stdout log))).

(** Seconds spent in [time.sleep]. *)
Fixpoint slept (log : list event) : Q :=
  match log with
  | [] => 0
  | Sleep seconds :: rest => seconds + slept rest
  | _ :: rest => slept rest
  end.

(** The events of the supervisor up to the moment the wait loop starts. *)
Definition startup_log (w : world) (model_name huggingface_model : string) : list event :=
  let cmd := download_cmd huggingface_model (cache_dir w ++ "/" ++ model_name) in
  [ Print "DOWNLOAD_START";
    Print ("Downloading model: " ++ model_name);
    Mkdir (cache_dir w);
    Print "PROGRESS: 0.05";
    Print "Starting robust download with huggingface-cli...";
    ThreadStart model_name (cache_dir w);
    Print "PROGRESS: 0.1";
    Print "Initializing download...";
    Print "PROGRESS: 0.2";
    Print "Executing download command...";
    Print ("Command: " ++ String.concat " " cmd);
    Popen cmd ].

(** The three calls before the wait loop do not raise. *)
Definition spawns (w : world) : Prop :=
  mkdir_raises w = None /\ thread_start_raises w = None /\ popen_raises w = None.

(** The [i]-th test of the loop finds the process alive and the ceiling
    exceeded. *)
Definition ceiling_exceeded (w : world) (i : nat) : bool :=
  Qltb timeout (clock w i - start_time w).

(** The process is seen alive, within the ceiling, at every test before
    the [k]-th. *)
Definition waits_until (w : world) (k : nat) : Prop :=
  forall i, (i < k)%nat -> poll w i = None /\ ceiling_exceeded w i = false.

(** The events after the loop when the process left with a nonzero code and
    its streams were read. *)
Definition failure_report (returncode : Z) (out err : string) : list event :=
  [ Communicate;
    Print ("DOWNLOAD_ERROR: Download failed with return code " ++ str_of_int returncode);
    Print ("STDOUT: " ++ out);
    Print ("STDERR: " ++ err) ].

(** The event of the [except Exception as e] handler. *)
Definition caught (msg : string) : event :=
  Print ("DOWNLOAD_ERROR: " ++ msg).

(** The runs of the supervisor, path by path. *)
Inductive run_shape (w : world) (fuel : nat) (model_name : string) : M bool -> Prop :=
| shape_mkdir_raises (msg : string) :
    mkdir_raises w = Some msg ->
    run_shape w fuel model_name
      ([Print "DOWNLOAD_START"; Print ("Downloading model: " ++ model_name); caught msg],
       Done false)
| shape_unknown_model :
    mkdir_raises w = None ->
    dict_get model_mapping model_name = None ->
    run_shape w fuel model_name
      ([Print "DOWNLOAD_START"; Print ("Downloading model: " ++ model_name);
        Mkdir (cache_dir w);
        Print ("DOWNLOAD_ERROR: Unknown model " ++ model_name)],
       Done false)
| shape_thread_raises (huggingface_model msg : string) :
    mkdir_raises w = None ->
    dict_get model_mapping model_name = Some huggingface_model ->
    thread_start_raises w = Some msg ->
    run_shape w fuel model_name
      ((firstn 5 (startup_log w model_name huggingface_model) ++ [caught msg])%list,
       Done false)
| shape_popen_raises (huggingface_model msg : string) :
    mkdir_raises w = None ->
    dict_get model_mapping model_name = Some huggingface_model ->
    thread_start_raises w = None ->
    popen_raises w = Some msg ->
    run_shape w fuel model_name
      ((firstn 11 (startup_log w model_name huggingface_model) ++ [caught msg])%list,
       Done false)
| shape_pending (huggingface_model : string) :
    spawns w ->
    dict_get model_mapping model_name = Some huggingface_model ->
    waits_until w fuel ->
    run_shape w fuel model_name
      ((startup_log w model_name huggingface_model ++ repeat (Sleep 5) fuel)%list,
       Pending)
| shape_timed_out (huggingface_model : string) (k : nat) :
    spawns w ->
    dict_get model_mapping model_name = Some huggingface_model ->
    waits_until w k -> (k < fuel)%nat ->
    poll w k = None -> ceiling_exceeded w k = true ->
    run_shape w fuel model_name
      ((startup_log w model_name huggingface_model ++ repeat (Sleep 5) k
        ++ [Print timed_out_line; Terminate])%list,
       Done false)
| shape_complete (huggingface_model : string) (k : nat) :
    spawns w ->
    dict_get model_mapping model_name = Some huggingface_model ->
    waits_until w k -> (k < fuel)%nat ->
    poll w k = Some 0 ->
    run_shape w fuel model_name
      ((startup_log w model_name huggingface_model ++ repeat (Sleep 5) k
        ++ [Print "PROGRESS: 1.0"; Print "DOWNLOAD_COMPLETE"])%list,
       Done true)
| shape_communicate_raises (huggingface_model : string) (k : nat) (returncode : Z)
                           (msg : string) :
    spawns w ->
    dict_get model_mapping model_name = Some huggingface_model ->
    waits_until w k -> (k < fuel)%nat ->
    poll w k = Some returncode -> returncode <> 0 ->
    communicate_result w = inl msg ->
    run_shape w fuel model_name
      ((startup_log w model_name huggingface_model ++ repeat (Sleep 5) k
        ++ [caught msg])%list,
       Done false)
| shape_failed (huggingface_model : string) (k : nat) (returncode : Z)
               (out err : string) :
    spawns w ->
    dict_get model_mapping model_name = Some huggingface_model ->
    waits_until w k -> (k < fuel)%nat ->
    poll w k = Some returncode -> returncode <> 0 ->
    communicate_result w = inr (out, err) ->
    run_shape w fuel model_name
      ((startup_log w model_name huggingface_model ++ repeat (Sleep 5) k
        ++ failure_report returncode out err)%list,
       Done false).

(** An exception with message [msg] is raised inside the [try] block: by
    [mkdir], by the start of the thread, by [Popen], or by [communicate()]
    after a nonzero exit. *)
Definition raises (w : world) (fuel : nat) (model_name msg : string) : Prop :=
  mkdir_raises w = Some msg \/
  (mkdir_raises w = None /\
   (model_name = "schnell" \/ model_name = "dev") /\
   (thread_start_raises w = Some msg \/
    (thread_start_raises w = None /\
     (popen_raises w = Some msg \/
      (popen_raises w = None /\
       exists k returncode,
         waits_until w k /\ (k < fuel)%nat /\
         poll w k = Some returncode /\ returncode <> 0 /\
         communicate_result w = inl msg))))).

(** ** What a consumer of standard output reads *)

Definition digit_of (c : ascii) : option Z :=
  let n := Z.of_nat (nat_of_ascii c) in
  if (48 <=? n) && (n <=? 57) then Some (n - 48) else None.

(** An unsigned decimal numeral with at most one point. *)
Fixpoint parse_decimal (s : string) (num : Z) (den : positive) (after_point : bool)
  : option Q :=
  match s with
  | EmptyString => Some (num # den)
  | String c rest =>
      if Ascii.eqb c "." then
        if after_point then None else parse_decimal rest num den true
      else
        match digit_of c with
        | Some d =>
            parse_decimal rest (num * 10 + d)
                          (if after_point then (den * 10)%positive else den) after_point
        | None => None
        end
  end.

(** The fraction carried by a [PROGRESS: <fraction>] line. *)
Definition progress_value (line : string) : option Q :=
  if String.prefix "PROGRESS: " line then
    parse_decimal (substring 10 (String.length line - 10) line) 0 1 false
  else None.

Fixpoint progress_values (lines : list string) : list Q :=
  match lines with
  | [] => []
  | line :: rest =>
      match progress_value line with
      | Some p => p :: progress_values rest
      | None => progress_values rest
      end
  end.

(** ** One job: the supervisor and the sampler on one standard output *)

Inductive thread : Type :=
| Foreground   (* download_model_robust *)
| Background.  (* monitor_download_progress, the daemon thread *)

Definition is_thread_start (e : event) : bool :=
  match e with
  | ThreadStart _ _ => true
  | _ => false
  end.

(** [merged started fg bg s]: [s] is a schedule of the foreground events
    [fg] and the background events [bg], each kept in its own order; a
    background event can be scheduled only once the thread is started.
    Background events may follow the last foreground event: the daemon
    thread lives until the interpreter has shut down. *)
Inductive merged : bool -> list event -> list event -> list (thread * event) -> Prop :=
| merged_nil (started : bool) :
    merged started [] [] []
| merged_fg (started : bool) (e : event) (fg bg : list event) (s : list (thread * event)) :
    merged (started || is_thread_start e) fg bg s ->
    merged started (e :: fg) bg ((Foreground, e) :: s)
| merged_bg (e : event) (fg bg : list event) (s : list (thread * event)) :
    merged true fg bg s ->
    merged true fg (e :: bg) ((Background, e) :: s).

(** The streams one job can produce, for the scans [samples] the sampler
    gets to make. *)
Definition job_stream (w : world) (fuel : nat) (model_name : string)
           (samples : list sample) (s : list (thread * event)) : Prop :=
  merged false (fst (download_model_robust w fuel model_name))
         (monitor_download_progress model_name samples) s.

Definition is_foreground (x : thread * event) : bool :=
  match fst x with
  | Foreground => true
  | Background => false
  end.

Definition is_background (x : thread * event) : bool :=
  negb (is_foreground x).

Definition foreground_events (s : list (thread * event)) : list event :=
  map snd (filter is_foreground s).

Definition background_events (s : list (thread * event)) : list event :=
  map snd (filter is_background s).

(** The lines of the whole stream, as the consumer reads them. *)
Definition stream_lines (s : list (thread * event)) : list string :=
  stdout (map snd s).

(** [l] is non-decreasing. *)
Fixpoint nondecreasingb (l : list Q) : bool :=
  match l with
  | [] => true
  | x :: rest =>
      match rest with
      | [] => true
      | y :: _ => Qle_bool x y && nondecreasingb rest
      end
  end.

(** The last line of the stream is a terminal status token. *)
Definition terminal_is_last (lines : list string) : bool :=
  match rev lines with
  | [] => false
  | line :: _ => is_terminal line
  end.

(** A detail line that follows [DOWNLOAD_ERROR] on a nonzero exit. *)
Definition is_detail (line : string) : bool :=
  String.prefix "STDOUT: " line || String.prefix "STDERR: " line.

(** ** Worlds and scans used as concrete instances *)

(** The process is found gone, with code [returncode], at the second test of
    the loop, five seconds after the start. *)
Definition exiting_world (returncode : Z) : world :=
  {| cache_dir := "/Users/flux/.cache/mflux";
     mkdir_raises := None;
     thread_start_raises := None;
     popen_raises := None;
     start_time := 1000;
     poll := fun n => match n with O => None | _ => Some returncode end;
     clock := fun n => (1000 + 5 * inject_Z (Z.of_nat n))%Q;
     communicate_result := inr ("", "Repository Not Found") |}.

(** The process never exits; the clock advances by the five seconds slept. *)
Definition hanging_world : world :=
  {| cache_dir := "/Users/flux/.cache/mflux";
     mkdir_raises := None;
     thread_start_raises := None;
     popen_raises := None;
     start_time := 1000;
     poll := fun _ => None;
     clock := fun n => (1000 + 5 * inject_Z (Z.of_nat n))%Q;
     communicate_result := inr ("", "") |}.

(** [huggingface-cli] is not installed: [Popen] raises. *)
Definition no_cli_world : world :=
  {| cache_dir := "/Users/flux/.cache/mflux";
     mkdir_raises := None;
     thread_start_raises := None;
     popen_raises := Some "[Errno 2] No such file or directory: 'huggingface-cli'";
     start_time := 1000;
     poll := fun _ => None;
     clock := fun n => (1000 + 5 * inject_Z (Z.of_nat n))%Q;
     communicate_result := inr ("", "") |}.

(** A scan that finds one file of [size] bytes under the first cache root
    and no other root. *)
Definition one_file_scan (size : Z) : sample :=
  Scanned [ {| root_exists := true;
               root_walk := [ [ {| fe_exists := true; fe_size := size |} ] ] |};
            {| root_exists := false; root_walk := [] |};
            {| root_exists := false; root_walk := [] |} ].

(** Two early scans of a download of ["dev"]: about 1% and then 2% of the
    expected size on disk. *)
Definition early_samples : list sample :=
  [ one_file_scan 45097157; one_file_scan 90194314 ].

(** One schedule of the job of [exiting_world 0] on ["dev"]: the sampler
    makes its first pass right after it is started, and its second pass ends
    after the supervisor has printed [DOWNLOAD_COMPLETE], before the
    interpreter has shut down. *)
Definition late_progress_stream : list (thread * event) :=
  let fg := fst (download_model_robust (exiting_world 0) 2 "dev") in
  let bg := monitor_download_progress "dev" early_samples in
  (map (pair Foreground) (firstn 6 fg)
   ++ map (pair Background) (firstn 2 bg)
   ++ map (pair Foreground) (skipn 6 fg)
   ++ map (pair Background) (skipn 2 bg))%list.

(** ** Further observations on the sampler *)

(** The scan of a pass went through. *)
Definition is_scanned (s : sample) : bool :=
  match s with
  | Scanned _ => true
  | ScanRaised _ => false
  end.

(** The messages of the scans that raised, in order. *)
Fixpoint scan_errors (samples : list sample) : list string :=
  match samples with
  | [] => []
  | Scanned _ :: rest => scan_errors rest
  | ScanRaised msg :: rest => msg :: scan_errors rest
  end.

(** The lines of a log that report a scan error. *)
Definition monitor_error_lines (log : list event) : list string :=
  filter (String.prefix "PROGRESS_MONITOR_ERROR") (stdout log).

(** The text [format_2f] writes for a number of hundredths. *)
Definition hundredths_text (hundredths : Z) : string :=
  let frac := hundredths mod 100 in
  str_of_int (hundredths / 100) ++ "."
    ++ (if frac <? 10 then "0" else "") ++ str_of_int frac.

(** [x], rounded to two decimals. *)
Definition two_decimals (x : Q) : Q :=
  round_half_even (Qabs x * 100) # 100.

(** The text of a number of hundredths below 100 reads back as that number
    of hundredths. *)
Definition reads_back (n : nat) : bool :=
  match progress_value ("PROGRESS: " ++ hundredths_text (Z.of_nat n)) with
  | Some (Qmake num den) => (num =? Z.of_nat n) && Pos.eqb den 100
  | None => false
  end.

(** The progress lines of a log, as printed. *)
Definition progress_lines (log : list event) : list string :=
  filter (String.prefix "PROGRESS: ") (stdout log).

(** [process.communicate()] has been called. *)
Definition communicated (log : list event) : bool :=
  existsb (fun e => match e with Communicate => true | _ => false end) log.

(** * PythonBridge/mflux_wrapper.py

    The wrapper class and the command-line mode of the script.  The mflux
    library, the random generator, the clock, [int()], [float()] and the PNG
    encoder are read from a [library] record; the state of a [MFLUXWrapper]
    object is passed explicitly.  The module-level imports are not modelled:
    [MFLUX_AVAILABLE] is the flag they leave.  An [event] records a call
    when it is made, whether or not it raises. *)

Module Wrapper.

(** The [Flux1] object, kept as the call that made it. *)
Inductive flux1 : Type :=
| Flux1 (model_name : string) (quantize : option Z).

Record config : Type := Config {
  num_inference_steps : Z;
  height : Z;
  width : Z;
  guidance : Q
}.

(** The [metadata] dict of [generate_image]. *)
Record metadata : Type := {
  md_prompt : string;
  md_negative_prompt : string;
  md_model : string;
  md_steps : Z;
  md_guidance_scale : Q;
  md_seed : Z;
  md_width : Z;
  md_height : Z;
  md_generation_time : Q;
  md_timestamp : Z;
  md_real_ai : bool
}.

(** The [result] dict of the command-line mode. *)
Inductive json_result : Type :=
| JsonSuccess (image_data : string) (md : metadata)
| JsonFailure (error : string).

Inductive event : Type :=
| Log (message : string)                 (* print(message, file=sys.stderr) *)
| FromName (model_name : string) (quantize : option Z)
                                         (* Flux1.from_name(...) *)
| Randint                                (* random.randint(1, 2**31 - 1) *)
| GenerateImage (model : flux1) (seed : Z) (prompt : string) (c : config)
                                         (* self.flux_model.generate_image(...) *)
| SavePng                                (* image.save(buffer, format='PNG') *)
| PrintJson (r : json_result).           (* print(json.dumps(result)) *)

(** A call returns, or an [Exception] [e] propagates with [str(e) = msg]. *)
Inductive result (A : Type) : Type :=
| Ok (a : A)
| Exc (msg : string).

Arguments Ok {A} a.
Arguments Exc {A} msg.

(** The attributes of a [MFLUXWrapper] that change. *)
Record MFLUXWrapper : Type := {
  flux_model : option flux1;
  current_model : option string
}.

Definition available_models : list (string * string) :=
  [ ("schnell", "FLUX.1-schnell"); ("dev", "FLUX.1-dev") ].

(** [f"{x:.1f}"]. *)
Definition format_1f (x : Q) : string :=
  let sign := if Qltb x 0 then "-" else "" in
  let tenths := round_half_even (Qabs x * 10) in
  sign ++ str_of_int (tenths / 10) ++ "." ++ str_of_int (tenths mod 10).

(** [int(x)] for a float: truncation towards zero. *)
Definition int_of_float (x : Q) : Z :=
  if Qltb x 0 then Qceiling x else Qfloor x.

(** [if quantize:] *)
Definition truthy (quantize : option Z) : bool :=
  match quantize with
  | Some q => negb (q =? 0)
  | None => false
  end.

(** [str(quantize)] *)
Definition str_of_quantize (quantize : option Z) : string :=
  match quantize with
  | Some q => str_of_int q
  | None => "None"
  end.

Section Library.

Variable image : Type.

Record library : Type := {
  MFLUX_AVAILABLE : bool;
  from_name : string -> option Z -> option string;
                                   (* Flux1.from_name: [Some msg] when it raises *)
  randint : Z;                     (* the value of random.randint(1, 2**31 - 1) *)
  flux_generate : flux1 -> Z -> string -> config -> string + image;
                                   (* generate_image(...).image, or it raises *)
  time_start : Q;                  (* time.time() before the generation *)
  time_end : Q;                    (* time.time() after it *)
  time_stamp : Q;                  (* time.time() for the timestamp *)
  py_int : string -> string + Z;   (* int(s), or the message of its ValueError *)
  py_float : string -> string + Q; (* float(s), likewise *)
  png_base64 : image -> string + string
                                   (* image.save(...) and b64encode, or it raises *)
}.

Variable lib : library.

(** [MFLUXWrapper.__init__] *)
Definition init : list event * MFLUXWrapper :=
  ([ Log "🎨 MFLUX Wrapper initialized";
     if MFLUX_AVAILABLE lib then Log "✅ Real AI generation available"
     else Log "⚠️  Real AI generation not available - please install MFLUX" ],
   {| flux_model := None; current_model := None |}).

(** [MFLUXWrapper.load_model] *)
Definition load_model (self : MFLUXWrapper) (model_name : string) (quantize : option Z)
  : list event * MFLUXWrapper * bool :=
  if negb (MFLUX_AVAILABLE lib) then
    ([Log ("❌ Cannot load model '" ++ model_name ++ "' - MFLUX not available")],
     self, false)
  else
    match dict_get available_models model_name with
    | None => ([Log ("❌ Unknown model: " ++ model_name)], self, false)
    | Some _ =>
        let announced :=
          (Log ("📦 Loading MFLUX model: " ++ model_name)
           :: (if truthy quantize then
                 [Log ("🗜️  Using " ++ str_of_quantize quantize ++ "-bit quantization")]
               else [])
           ++ [FromName model_name quantize])%list in
        match from_name lib model_name quantize with
        | None =>
            ((announced ++ [Log ("✅ Model '" ++ model_name ++ "' loaded successfully")])%list,
             {| flux_model := Some (Flux1 model_name quantize);
                current_model := Some model_name |},
             true)
        | Some e =>
            ((announced
              ++ [Log ("❌ Failed to load model '" ++ model_name ++ "': " ++ e)])%list,
             {| flux_model := None; current_model := None |},
             false)
        end
    end.

(** [self.current_model != model] *)
Definition other_model (self : MFLUXWrapper) (model : string) : bool :=
  match current_model self with
  | Some current => negb (String.eqb current model)
  | None => true
  end.

Definition no_flux_model : string :=
  "'NoneType' object has no attribute 'generate_image'".

(** [MFLUXWrapper.generate_image] *)
Definition generate_image (self : MFLUXWrapper) (prompt model : string) (steps : Z)
           (guidance_scale : Q) (seed : option Z) (width height : Z)
           (negative_prompt : string)
  : list event * MFLUXWrapper * result (image * metadata) :=
  if negb (MFLUX_AVAILABLE lib) then ([], self, Exc "MFLUX not available")
  else
    let started :=
      [ Log ("🎨 Generating image with prompt: '" ++ prompt ++ "'");
        Log ("   Model: " ++ model ++ ", Steps: " ++ str_of_int steps
             ++ ", Size: " ++ str_of_int width ++ "x" ++ str_of_int height) ] in
    let '(loading, self, loaded) :=
      if other_model self model then load_model self model (Some 8)
      else ([], self, true) in
    if negb loaded then
      ((started ++ loading)%list, self, Exc ("Failed to load model: " ++ model))
    else
      let '(drawn, seed) :=
        match seed with
        | Some seed => ([], seed)
        | None => ([Randint], randint lib)
        end in
      let c := {| num_inference_steps := steps; height := height; width := width;
                  guidance := guidance_scale |} in
      let before :=
        (started ++ loading ++ drawn
         ++ [Log ("🎲 Using seed: " ++ str_of_int seed);
             Log "🚀 Starting AI image generation..."])%list in
      match flux_model self with
      | None =>
          ((before ++ [Log ("❌ AI generation failed: " ++ no_flux_model)])%list,
           self, Exc no_flux_model)
      | Some model_object =>
          let called := (before ++ [GenerateImage model_object seed prompt c])%list in
          match flux_generate lib model_object seed prompt c with
          | inl e =>
              ((called ++ [Log ("❌ AI generation failed: " ++ e)])%list, self, Exc e)
          | inr generated =>
              let generation_time := (time_end lib - time_start lib)%Q in
              ((called
                ++ [Log ("✅ Real AI image generated successfully in "
                         ++ format_1f generation_time ++ "s")])%list,
               self,
               Ok (generated,
                   {| md_prompt := prompt;
                      md_negative_prompt := negative_prompt;
                      md_model := model;
                      md_steps := steps;
                      md_guidance_scale := guidance_scale;
                      md_seed := seed;
                      md_width := width;
                      md_height := height;
                      md_generation_time := generation_time;
                      md_timestamp := int_of_float (time_stamp lib);
                      md_real_ai := true |}))
          end
      end.

(** The seed [generate_image] works with: the one given, or the one drawn. *)
Definition seed_used (seed : option Z) : Z :=
  match seed with
  | Some given => given
  | None => randint lib
  end.

(** [parse(sys.argv[i]) if len(sys.argv) > i else default] *)
Definition argument {A : Type} (parse : string -> string + A) (argv : list string)
           (i : nat) (default : A) : string + A :=
  match nth_error argv i with
  | Some arg => parse arg
  | None => inr default
  end.

Definition as_is (arg : string) : string + string := inr arg.

Definition some_int (arg : string) : string + option Z :=
  match py_int lib arg with
  | inl e => inl e
  | inr n => inr (Some n)
  end.

Definition failed (e : string) : event :=
  PrintJson (JsonFailure ("Image generation failed: " ++ e)).

(** The command-line mode of the script (its [else] branch): the events and
    the exit status of the process. *)
Definition command_line_mode (argv : list string) : list event * Z :=
  match argument as_is argv 1 "A beautiful landscape" with
  | inl e => ([failed e], 1)
  | inr prompt =>
  match argument as_is argv 2 "schnell" with
  | inl e => ([failed e], 1)
  | inr model =>
  match argument (py_int lib) argv 3 4 with
  | inl e => ([failed e], 1)
  | inr steps =>
  match argument (py_float lib) argv 4 7.5%Q with
  | inl e => ([failed e], 1)
  | inr guidance_scale =>
  match argument some_int argv 5 None with
  | inl e => ([failed e], 1)
  | inr seed =>
  match argument (py_int lib) argv 6 512 with
  | inl e => ([failed e], 1)
  | inr width =>
  match argument (py_int lib) argv 7 512 with
  | inl e => ([failed e], 1)
  | inr height =>
      let '(created, wrapper) := init in
      if negb (MFLUX_AVAILABLE lib) then
        ((created
          ++ [PrintJson
                (JsonFailure
                   "MFLUX library not available. Please install MFLUX to generate real AI images.")])%list,
         1)
      else
        let '(generating, wrapper, generated) :=
          generate_image wrapper prompt model steps guidance_scale seed width height "" in
        match generated with
        | Exc e => ((created ++ generating ++ [failed e])%list, 1)
        | Ok (generated_image, md) =>
            match png_base64 lib generated_image with
            | inl e => ((created ++ generating ++ [SavePng; failed e])%list, 1)
            | inr image_data =>
                ((created ++ generating
                  ++ [SavePng; PrintJson (JsonSuccess image_data md)])%list,
                 0)
            end
        end
  end end end end end end end.

End Library.

Arguments MFLUX_AVAILABLE {image} l.
Arguments from_name {image} l model_name quantize.
Arguments randint {image} l.
Arguments flux_generate {image} l model seed prompt c.
Arguments time_start {image} l.
Arguments time_end {image} l.
Arguments time_stamp {image} l.
Arguments py_int {image} l s.
Arguments py_float {image} l s.
Arguments png_base64 {image} l i.
Arguments init {image} lib.
Arguments load_model {image} lib self model_name quantize.
Arguments generate_image {image} lib self prompt model steps guidance_scale seed
  width height negative_prompt.
Arguments command_line_mode {image} lib argv.
Arguments seed_used {image} lib seed.

(** ** Libraries used as concrete instances (an image is a text here) *)

(** A stand-in for [int()] on plain decimal numerals. *)
Definition plain_int (s : string) : string + Z :=
  match s, parse_decimal s 0 1 false with
  | String _ _, Some (Qmake n xH) => inr n
  | _, _ => inl ("invalid literal for int() with base 10: '" ++ s ++ "'")
  end.

(** A stand-in for [float()] on plain decimal numerals. *)
Definition plain_float (s : string) : string + Q :=
  match s, parse_decimal s 0 1 false with
  | String _ _, Some q => inr q
  | _, _ => inl ("could not convert string to float: '" ++ s ++ "'")
  end.

(** The library is installed and works. *)
Definition working_library : library string :=
  {| MFLUX_AVAILABLE := true;
     from_name := fun _ _ => None;
     randint := 123456789;
     flux_generate := fun _ _ prompt _ => inr ("image of " ++ prompt);
     time_start := 1700000000;
     time_end := 1700000012.34%Q;
     time_stamp := 1700000012.5%Q;
     py_int := plain_int;
     py_float := plain_float;
     png_base64 := fun _ => inr "iVBORw0KGgo=" |}.

(** The library is installed, but the weights of ["dev"] cannot be loaded
    and every generation runs out of memory. *)
Definition failing_library : library string :=
  {| MFLUX_AVAILABLE := true;
     from_name := fun model_name _ =>
                    if String.eqb model_name "dev" then Some "weights not found" else None;
     randint := 123456789;
     flux_generate := fun _ _ _ _ => inl "out of memory";
     time_start := 1700000000;
     time_end := 1700000012.34%Q;
     time_stamp := 1700000012.5%Q;
     py_int := plain_int;
     py_float := plain_float;
     png_base64 := fun _ => inr "iVBORw0KGgo=" |}.

(** The library is not installed. *)
Definition missing_library : library string :=
  {| MFLUX_AVAILABLE := false;
     from_name := fun _ _ => Some "name 'Flux1' is not defined";
     randint := 123456789;
     flux_generate := fun _ _ _ _ => inl "name 'Flux1' is not defined";
     time_start := 1700000000;
     time_end := 1700000012.34%Q;
     time_stamp := 1700000012.5%Q;
     py_int := plain_int;
     py_float := plain_float;
     png_base64 := fun _ => inr "iVBORw0KGgo=" |}.

(** A wrapper that holds ["schnell"], loaded with 8-bit quantization. *)
Definition schnell_loaded : MFLUXWrapper :=
  {| flux_model := Some (Flux1 "schnell" (Some 8)); current_model := Some "schnell" |}.

(** What [__init__] leaves, and every method keeps: no model at all, or a
    model of the table together with the object made for it. *)
Definition consistent (self : MFLUXWrapper) : Prop :=
  match current_model self, flux_model self with
  | None, None => True
  | Some current, Some (Flux1 loaded _) =>
      loaded = current /\ In current (map fst available_models)
  | _, _ => False
  end.

Definition is_from_name (e : event) : bool :=
  match e with
  | FromName _ _ => true
  | _ => false
  end.

Definition is_generate (e : event) : bool :=
  match e with
  | GenerateImage _ _ _ _ => true
  | _ => false
  end.

Definition is_log (e : event) : bool :=
  match e with
  | Log _ => true
  | _ => false
  end.

(** The [result] dicts written to standard output. *)
Fixpoint printed (log : list event) : list json_result :=
  match log with
  | [] => []
  | PrintJson r :: rest => r :: printed rest
  | _ :: rest => printed rest
  end.

End Wrapper.

(** * test_app_integration.py

    The two tests of the script and its main block, over the wrapper.  The
    import of the wrapper at the top of the script is taken to succeed. *)

Module Integration.

Inductive event : Type :=
| Out (line : string)                 (* print(line) *)
| OutMetadata (md : Wrapper.metadata) (* print(f"📊 Metadata: {metadata}") *)
| Lib (e : Wrapper.event).            (* an event of the wrapper *)

(** [str(b)] for a [bool]. *)
Definition str_of_bool (b : bool) : string :=
  if b then "True" else "False".

Definition newline : string := String "010"%char EmptyString.

Section Library.

Variable image : Type.
Variable lib : Wrapper.library image.

(** [test_model_loading] *)
Definition test_model_loading : list event * bool :=
  let '(created, wrapper) := Wrapper.init lib in
  let '(loading, wrapper, success) := Wrapper.load_model lib wrapper "schnell" (Some 8) in
  ((map Lib created
    ++ [ Out "✅ MFLUX wrapper initialized";
         Out ("✅ MFLUX available: " ++ str_of_bool (Wrapper.MFLUX_AVAILABLE lib));
         Out "✅ Available models: {'schnell': 'FLUX.1-schnell', 'dev': 'FLUX.1-dev'}";
         Out "🔄 Testing model loading..." ]
    ++ map Lib loading
    ++ [ Out ("✅ Model load success: " ++ str_of_bool success) ])%list,
   true).

(** [test_image_generation] *)
Definition test_image_generation : list event * bool :=
  let '(created, wrapper) := Wrapper.init lib in
  let '(generating, wrapper, generated) :=
    Wrapper.generate_image lib wrapper "A beautiful sunset over mountains" "schnell"
      5 7.5%Q None 512 512 "" in
  let before :=
    (map Lib created ++ [Out "🔄 Testing image generation..."] ++ map Lib generating)%list in
  match generated with
  | Wrapper.Exc e => ((before ++ [Out ("❌ Image generation failed: " ++ e)])%list, false)
  | Wrapper.Ok (generated_image, md) =>
      let reported :=
        (before ++ [Out "✅ Image generation successful!"; OutMetadata md;
                    Lib Wrapper.SavePng])%list in
      match Wrapper.png_base64 lib generated_image with
      | inl e => ((reported ++ [Out ("❌ Image generation failed: " ++ e)])%list, false)
      | inr image_data =>
          ((reported
            ++ [ Out "✅ Base64 conversion successful";
                 Out ("📏 Image data length: "
                      ++ str_of_int (Z.of_nat (String.length image_data))
                      ++ " characters") ])%list,
           true)
      end
  end.

(** The main block of the script: the events and the exit status. *)
Definition main : list event * Z :=
  let opening :=
    [ Out "🧪 Testing MFLUX integration...";
      Out "==================================================" ] in
  let '(loading, loaded) := test_model_loading in
  if negb loaded then
    ((opening ++ loading ++ [Out (newline ++ "❌ Model loading test failed")])%list, 1)
  else
    let '(generating, generated) := test_image_generation in
    let first :=
      (opening ++ loading ++ [Out (newline ++ "✅ Model loading test passed")]
       ++ generating)%list in
    if negb generated then
      ((first ++ [Out (newline ++ "❌ Image generation test failed")])%list, 1)
    else
      ((first
        ++ [ Out (newline ++ "✅ Image generation test passed");
             Out (newline
                  ++ "🎉 All tests passed! MFLUX integration is working correctly.") ])%list,
       0).

End Library.

Arguments test_model_loading {image} lib.
Arguments test_image_generation {image} lib.
Arguments main {image} lib.

(** The calls of [Flux1.from_name] in a log. *)
Fixpoint loads (log : list event) : list (string * option Z) :=
  match log with
  | [] => []
  | Lib (Wrapper.FromName model_name quantize) :: rest => (model_name, quantize) :: loads rest
  | _ :: rest => loads rest
  end.

(** The lines printed to standard output. *)
Fixpoint lines (log : list event) : list string :=
  match log with
  | [] => []
  | Out line :: rest => line :: lines rest
  | _ :: rest => lines rest
  end.

End Integration.

(** * PythonBridge/test_hf_download.py *)

Module HfDownloadTest.

(** How [subprocess.run(cmd, capture_output=True, text=True, timeout=300)]
    ends. *)
Inductive run_outcome : Type :=
| Completed (returncode : Z) (out err : string)
| TimeoutExpired
| RunRaised (msg : string).

Definition test_model : string := "microsoft/DialoGPT-small".

(** [test_hf_download], for [local_dir = str(Path.home() / '.cache' / 'mflux' / 'test')];
    [Popen cmd] records the call [subprocess.run(cmd, ...)]. *)
Definition test_hf_download (local_dir : string) (ran : run_outcome) : list event * bool :=
  let cmd :=
    [ "huggingface-cli"; "download";
      test_model;
      "--local-dir"; local_dir;
      "--local-dir-use-symlinks"; "False";
      "--resume-download";
      "--quiet" ] in
  let before :=
    [ Print "Testing huggingface-cli download...";
      Print ("Running: " ++ String.concat " " cmd) ] in
  match ran with
  | Completed returncode out err =>
      if returncode =? 0 then
        ((before ++ [Popen cmd; Print "✅ huggingface-cli test successful!"])%list, true)
      else
        ((before
          ++ [ Popen cmd;
               Print "❌ huggingface-cli test failed:";
               Print ("STDOUT: " ++ out);
               Print ("STDERR: " ++ err) ])%list,
         false)
  | TimeoutExpired => ((before ++ [Popen cmd; Print "❌ Test timed out"])%list, false)
  | RunRaised msg => ((before ++ [Popen cmd; Print ("❌ Test error: " ++ msg)])%list, false)
  end.

(** The main block: the exit status is [0 if success else 1]. *)
Definition main (local_dir : string) (ran : run_outcome) : list event * Z :=
  let '(log, success) := test_hf_download local_dir ran in
  (log, if success then 0 else 1).

End HfDownloadTest.

(** * Properties *)

(** ** Comparisons *)

Lemma Qltb_true (a b : Q) : Qltb a b = true <-> (a < b)%Q.
Proof.
  unfold Qltb. rewrite Qlt_alt.
  destruct (a ?= b)%Q; split; intro H; congruence.
Qed.

Lemma Qltb_false (a b : Q) : Qltb a b = false <-> (b <= a)%Q.
Proof.
  split; intro H.
  - apply Qnot_lt_le. intro Hlt. apply Qltb_true in Hlt. congruence.
  - destruct (Qltb a b) eqn:E; [|reflexivity].
    apply Qltb_true in E. exfalso. apply (Qlt_not_le _ _ E H).
Qed.

Lemma Qmin_takes_cap (x cap : Q) : (cap < x)%Q -> Qmin x cap = cap.
Proof.
  intro H. unfold Qmin, GenericMinMax.gmin.
  assert (E : (x ?= cap)%Q = Gt) by (apply Qgt_alt; exact H).
  rewrite E. reflexivity.
Qed.

(** ** SizeEstimator *)

Lemma get_model_size_gb_values (model_name : string) :
  get_model_size_gb model_name = 31.4%Q \/
  get_model_size_gb model_name = 4.2%Q \/
  get_model_size_gb model_name = 2.1%Q.
Proof.
  unfold get_model_size_gb, dict_get_default, model_sizes, dict_get.
  destruct (String.eqb "schnell" model_name); [now left|].
  destruct (String.eqb "dev" model_name); [now right; left|now right; right].
Qed.

Lemma expected_size_bytes_pos (model_name : string) :
  (0 < expected_size_bytes model_name)%Q.
Proof.
  unfold expected_size_bytes.
  destruct (get_model_size_gb_values model_name) as [E|[E|E]]; rewrite E; reflexivity.
Qed.

Lemma dict_get_absent {V : Type} (d : list (string * V)) (key : string) :
  ~ In key (map fst d) -> dict_get d key = None.
Proof.
  induction d as [|[k v] d IH]; simpl; intro H; [reflexivity|].
  destruct (String.eqb k key) eqn:E.
  - apply String.eqb_eq in E. exfalso. apply H. now left.
  - apply IH. intro Hin. apply H. now right.
Qed.

(** C9. [get_model_size_gb] is a total function (it has a value at every
    string, with no error case): an identifier that is not a key of the
    size table gets the default 2.1 GB, i.e. 2.1 * 1024^3 bytes once scaled
    by the sampler, and ["dev"] gets 4.2 GB, i.e. 4.2 * 1024^3 bytes. *)
Theorem size_estimator_total_with_default (model_name : string) :
  ~ In model_name (map fst model_sizes) ->
  get_model_size_gb model_name = 2.1%Q /\
  expected_size_bytes model_name = (2.1 * 1024 * 1024 * 1024)%Q /\
  (expected_size_bytes model_name == 2254857830.4)%Q /\
  get_model_size_gb "dev" = 4.2%Q /\
  (expected_size_bytes "dev" == 4509715660.8)%Q.
Proof.
  intro Habs.
  assert (E : get_model_size_gb model_name = 2.1%Q).
  { unfold get_model_size_gb, dict_get_default.
    now rewrite (dict_get_absent model_sizes model_name Habs). }
  unfold expected_size_bytes. rewrite E.
  repeat split; reflexivity.
Qed.

Lemma size_estimator_total_with_default_witness :
  get_model_size_gb "sdxl" = 2.1%Q /\
  (expected_size_bytes "sdxl" == 2254857830.4)%Q.
Proof.
  assert (H : ~ In "sdxl" (map fst model_sizes)).
  { simpl. intros [H|[H|[]]]; discriminate H. }
  destruct (size_estimator_total_with_default "sdxl" H) as (H1 & _ & H3 & _).
  split; assumption.
Defined.

(** ** ProgressMonitor *)

Section Monitor.

Variable expected : Q.

Lemma iteration_cases (last_progress : Q) (s : sample) :
  (emitted_fractions (fst (monitor_iteration expected last_progress s)) = [] /\
   next_progress expected last_progress s = last_progress) \/
  (exists cache_dirs,
      s = Scanned cache_dirs /\
      0 < sum_cache_dirs cache_dirs /\
      emitted_fractions (fst (monitor_iteration expected last_progress s))
      = [next_progress expected last_progress s] /\
      next_progress expected last_progress s
      = Qmin (inject_Z (sum_cache_dirs cache_dirs) / expected) progress_cap /\
      (last_progress < next_progress expected last_progress s)%Q).
Proof.
  unfold next_progress. destruct s as [cache_dirs|msg]; simpl.
  - destruct (0 <? sum_cache_dirs cache_dirs) eqn:Epos; [|now left].
    destruct (Qltb last_progress
                (Qmin (inject_Z (sum_cache_dirs cache_dirs) / expected) progress_cap))
      eqn:Elt; [|now left].
    right. exists cache_dirs. simpl.
    apply Z.ltb_lt in Epos. apply Qltb_true in Elt.
    repeat split; auto.
  - now left.
Qed.

Lemma emitted_fractions_app (l1 l2 : list event) :
  emitted_fractions (l1 ++ l2) = (emitted_fractions l1 ++ emitted_fractions l2)%list.
Proof.
  induction l1 as [|e l1 IH]; simpl; [reflexivity|].
  destruct e; simpl; rewrite IH; reflexivity.
Qed.

Lemma monitor_loop_cons (last_progress : Q) (s : sample) (rest : list sample) :
  monitor_loop expected last_progress (s :: rest)
  = (fst (monitor_iteration expected last_progress s)
     ++ monitor_loop expected (next_progress expected last_progress s) rest)%list.
Proof.
  unfold next_progress. simpl.
  destruct (monitor_iteration expected last_progress s); reflexivity.
Qed.

(** Every fraction the loop emits lies strictly above the [last_progress]
    it was entered with and does not exceed the cap, and the emitted
    fractions increase strictly. *)
Lemma monitor_loop_increasing (samples : list sample) :
  forall last_progress,
    let emitted := emitted_fractions (monitor_loop expected last_progress samples) in
    Forall (fun p => (last_progress < p)%Q /\ (p <= progress_cap)%Q) emitted /\
    StronglySorted Qlt emitted.
Proof.
  induction samples as [|s rest IH]; intro last_progress; simpl.
  - split; constructor.
  - fold (monitor_loop expected). change
      (let emitted := emitted_fractions (monitor_loop expected last_progress (s :: rest)) in
       Forall (fun p => (last_progress < p)%Q /\ (p <= progress_cap)%Q) emitted /\
       StronglySorted Qlt emitted).
    rewrite monitor_loop_cons, emitted_fractions_app. cbv zeta.
    destruct (IH (next_progress expected last_progress s)) as [Hall Hsorted].
    cbv zeta in Hall, Hsorted.
    destruct (iteration_cases last_progress s)
      as [[Hnone Hsame]|(cache_dirs & _ & _ & Hone & Hval & Hlt)].
    + rewrite Hnone. simpl. rewrite Hsame in Hall, Hsorted |- *. now split.
    + rewrite Hone. simpl. split.
      * constructor.
        { split; [exact Hlt|]. rewrite Hval. apply Q.le_min_r. }
        eapply Forall_impl; [|exact Hall]. simpl. intros p [Hp Hcap].
        split; [|exact Hcap]. eapply Qlt_trans; eassumption.
      * constructor; [exact Hsorted|].
        eapply Forall_impl; [|exact Hall]. simpl. intros p [Hp _]. exact Hp.
Qed.

Lemma monitor_loop_silent (samples : list sample) :
  forall last_progress,
    Forall no_byte_seen samples ->
    emitted_fractions (monitor_loop expected last_progress samples) = [].
Proof.
  induction samples as [|s rest IH]; intros last_progress Hall; [reflexivity|].
  rewrite monitor_loop_cons, emitted_fractions_app.
  inversion Hall as [|? ? Hs Hrest]; subst.
  destruct (iteration_cases last_progress s)
    as [[Hnone Hsame]|(cache_dirs & Hscan & Hpos & _)].
  - rewrite Hnone. simpl. apply IH. exact Hrest.
  - subst s. simpl in Hs. lia.
Qed.

End Monitor.

Lemma last_progress_after_ge (expected : Q) (samples : list sample) :
  forall last_progress,
    (last_progress <= last_progress_after expected last_progress samples)%Q.
Proof.
  unfold last_progress_after.
  induction samples as [|s rest IH]; intro last_progress; simpl.
  - apply Qle_refl.
  - eapply Qle_trans; [|apply IH].
    destruct (iteration_cases expected last_progress s)
      as [[_ Hsame]|(cache_dirs & _ & _ & _ & _ & Hlt)].
    + rewrite Hsame. apply Qle_refl.
    + apply Qlt_le_weak. exact Hlt.
Qed.

Lemma fraction_of_nothing (expected : Q) (total_size : Z) :
  (0 < expected)%Q -> total_size <= 0 ->
  (Qmin (inject_Z total_size / expected) progress_cap <= 0)%Q.
Proof.
  intros Hexp Htot.
  eapply Qle_trans; [apply Q.le_min_l|].
  apply Qle_shift_div_r; [exact Hexp|].
  setoid_replace (0 * expected)%Q with 0%Q by ring.
  change 0%Q with (inject_Z 0). rewrite <- Zle_Qle. exact Htot.
Qed.

Lemma fraction_of_everything (expected : Q) (total_size : Z) :
  (0 < expected)%Q -> (expected <= inject_Z total_size)%Q ->
  Qmin (inject_Z total_size / expected) progress_cap = progress_cap.
Proof.
  intros Hexp Htot. apply Qmin_takes_cap.
  apply Qlt_le_trans with (y := 1%Q); [reflexivity|].
  apply Qle_shift_div_l; [exact Hexp|].
  setoid_replace (1 * expected)%Q with expected by ring. exact Htot.
Qed.

(** C1. At every pass of the sampler (after any passes [before]), the
    fraction is [min(total_size / expected_size_bytes, 0.95)] and it is
    printed exactly when it is strictly above [last_progress], which then
    takes its value.  Whatever the scans, the fractions printed increase
    strictly and stay at or below 0.95; and a total at or above the expected
    size gives the fraction 0.95 itself, printed [PROGRESS: 0.95], not 1. *)
Theorem monitor_fraction_capped_and_increasing
        (model_name : string) (before : list sample)
        (cache_dirs : list cache_root) (samples : list sample) :
  let expected := expected_size_bytes model_name in
  let last_progress := last_progress_after expected 0 before in
  let total_size := sum_cache_dirs cache_dirs in
  let fraction := Qmin (inject_Z total_size / expected) progress_cap in
  let emitted := emitted_fractions (monitor_download_progress model_name samples) in
  monitor_iteration expected last_progress (Scanned cache_dirs)
  = (if Qltb last_progress fraction
     then ([PrintProgress fraction; Sleep 2], fraction)
     else ([Sleep 2], last_progress)) /\
  StronglySorted Qlt emitted /\
  Forall (fun p => (p <= progress_cap)%Q) emitted /\
  ((expected <= inject_Z total_size)%Q ->
   fraction = progress_cap /\ ~ (fraction == 1)%Q /\
   progress_line fraction = "PROGRESS: 0.95").
Proof.
  intros expected last_progress total_size fraction emitted.
  assert (Hexp : (0 < expected)%Q) by apply expected_size_bytes_pos.
  assert (Hlast : (0 <= last_progress)%Q) by apply last_progress_after_ge.
  destruct (monitor_loop_increasing expected samples 0%Q) as [Hall Hsorted].
  repeat split.
  - unfold monitor_iteration. fold total_size. fold fraction.
    destruct (0 <? total_size) eqn:Epos; [reflexivity|].
    apply Z.ltb_ge in Epos.
    assert (Hlow : (fraction <= 0)%Q) by (apply fraction_of_nothing; assumption).
    assert (E : Qltb last_progress fraction = false).
    { apply Qltb_false. eapply Qle_trans; eassumption. }
    rewrite E. reflexivity.
  - exact Hsorted.
  - eapply Forall_impl; [|exact Hall]. simpl. intros p [_ Hp]. exact Hp.
  - apply fraction_of_everything; assumption.
  - unfold fraction. rewrite fraction_of_everything by assumption. discriminate.
  - unfold fraction. rewrite fraction_of_everything by assumption. reflexivity.
Qed.

Lemma monitor_fraction_capped_and_increasing_witness :
  let full := [ {| root_exists := true;
                   root_walk := [[ {| fe_exists := true; fe_size := 4509715661 |} ]] |} ] in
  monitor_iteration (expected_size_bytes "dev") 0 (Scanned full)
  = ([PrintProgress progress_cap; Sleep 2], progress_cap) /\
  progress_line
    (Qmin (inject_Z (sum_cache_dirs full) / expected_size_bytes "dev") progress_cap)
  = "PROGRESS: 0.95".
Proof.
  intro full.
  destruct (monitor_fraction_capped_and_increasing "dev" [] full [])
    as (Hpass & _ & _ & Hcap).
  assert (Hfull : (expected_size_bytes "dev" <= inject_Z (sum_cache_dirs full))%Q)
    by (vm_compute; discriminate).
  destruct (Hcap Hfull) as (Heq & _ & Hline).
  split; [|exact Hline].
  cbv zeta in Hpass. rewrite Heq in Hpass. exact Hpass.
Defined.

(** C10. A pass whose scan sums to 0 bytes prints nothing (it only
    sleeps); as long as no pass has seen a byte the sampler has emitted no
    fraction; and every fraction it ever emits is strictly positive. *)
Theorem monitor_silent_until_first_byte
        (model_name : string) (last_progress : Q)
        (cache_dirs : list cache_root) (samples : list sample) :
  let expected := expected_size_bytes model_name in
  let emitted := emitted_fractions (monitor_download_progress model_name samples) in
  (sum_cache_dirs cache_dirs = 0 ->
   monitor_iteration expected last_progress (Scanned cache_dirs)
   = ([Sleep 2], last_progress)) /\
  (Forall no_byte_seen samples -> emitted = []) /\
  Forall (fun p => (0 < p)%Q) emitted.
Proof.
  intros expected emitted. repeat split.
  - intro Hzero. unfold monitor_iteration. rewrite Hzero. reflexivity.
  - intro Hquiet. apply monitor_loop_silent. exact Hquiet.
  - destruct (monitor_loop_increasing expected samples 0%Q) as [Hall _].
    eapply Forall_impl; [|exact Hall]. simpl. intros p [Hp _]. exact Hp.
Qed.

Lemma monitor_silent_until_first_byte_witness :
  let empty := [ {| root_exists := true; root_walk := [[]] |};
                 {| root_exists := false; root_walk := [] |} ] in
  monitor_iteration (expected_size_bytes "dev") 0 (Scanned empty) = ([Sleep 2], 0%Q) /\
  emitted_fractions
    (monitor_download_progress "dev" [Scanned empty; ScanRaised "gone"; Scanned empty])
  = [].
Proof.
  intro empty.
  destruct (monitor_silent_until_first_byte
              "dev" 0 empty [Scanned empty; ScanRaised "gone"; Scanned empty])
    as (Hpass & Hquiet & _).
  split.
  - apply Hpass. reflexivity.
  - apply Hquiet. repeat constructor.
Defined.

(** The scenario of the specification for ["dev"]: half of the expected
    size on disk prints [PROGRESS: 0.50], all of it prints [PROGRESS: 0.95]. *)
Example monitor_dev_scenario :
  stdout (monitor_download_progress "dev"
            [one_file_scan 2254857830; one_file_scan 4509715661])
  = ["PROGRESS: 0.50"; "PROGRESS: 0.95"].
Proof. vm_compute. reflexivity. Qed.

(** The printed text has two decimals only: two fractions that increase
    strictly can print the same text, and a small positive one prints 0.00. *)
Example monitor_text_can_repeat :
  stdout (monitor_download_progress "dev"
            [one_file_scan 1; one_file_scan 2254857830; one_file_scan 2264857830])
  = ["PROGRESS: 0.00"; "PROGRESS: 0.50"; "PROGRESS: 0.50"].
Proof. vm_compute. reflexivity. Qed.

(** A scan that raises is reported and skipped; the loop goes on. *)
Example monitor_survives_scan_error :
  monitor_download_progress "schnell" [ScanRaised "[Errno 13] Permission denied"]
  = [Print "PROGRESS_MONITOR_ERROR: [Errno 13] Permission denied"; Sleep 5].
Proof. reflexivity. Qed.

(** ** The wait loop *)

Lemma wait_loop_step (w : world) (fuel i : nat) :
  wait_loop w (S fuel) i =
  match poll w i with
  | Some returncode => ([], Done (Exited returncode))
  | None =>
      if ceiling_exceeded w i then
        ([Print timed_out_line; Terminate], Done (Returned false))
      else (Sleep 5 :: fst (wait_loop w fuel (S i)), snd (wait_loop w fuel (S i)))
  end.
Proof.
  simpl. destruct (poll w i); [reflexivity|].
  unfold ceiling_exceeded.
  destruct (Qltb timeout (clock w i - start_time w)); [reflexivity|].
  destruct (wait_loop w fuel (S i)) as [log r]. reflexivity.
Qed.

(** How the loop can end: after [n] sleeps it is out of tests, or it sees
    the process gone, or it sees the ceiling exceeded. *)
Lemma wait_loop_cases (w : world) (fuel : nat) :
  forall i, exists n,
    (forall j, (j < n)%nat ->
               poll w (i + j) = None /\ ceiling_exceeded w (i + j) = false) /\
    ((n = fuel /\ wait_loop w fuel i = (repeat (Sleep 5) n, Pending)) \/
     ((n < fuel)%nat /\ exists returncode,
         poll w (i + n) = Some returncode /\
         wait_loop w fuel i = (repeat (Sleep 5) n, Done (Exited returncode))) \/
     ((n < fuel)%nat /\ poll w (i + n) = None /\ ceiling_exceeded w (i + n) = true /\
      wait_loop w fuel i
      = ((repeat (Sleep 5) n ++ [Print timed_out_line; Terminate])%list,
         Done (Returned false)))).
Proof.
  induction fuel as [|fuel IH]; intro i.
  - exists 0%nat. split; [intros j Hj; lia|]. left. split; reflexivity.
  - rewrite wait_loop_step.
    destruct (poll w i) as [returncode|] eqn:Epoll.
    + exists 0%nat. split; [intros j Hj; lia|].
      right; left. split; [lia|]. exists returncode.
      rewrite Nat.add_0_r. split; [exact Epoll|reflexivity].
    + destruct (ceiling_exceeded w i) eqn:Eceil.
      * exists 0%nat. split; [intros j Hj; lia|].
        right; right. rewrite Nat.add_0_r. repeat split; auto. lia.
      * destruct (IH (S i)) as (n & Hbefore & Hend).
        exists (S n). split.
        { intros [|j] Hj.
          - rewrite Nat.add_0_r. split; assumption.
          - replace (i + S j)%nat with (S i + j)%nat by lia. apply Hbefore. lia. }
        replace (i + S n)%nat with (S i + n)%nat by lia.
        destruct Hend as [[Hn E]|[(Hn & returncode & Hp & E)|(Hn & Hp & Hc & E)]];
          rewrite E; simpl.
        { left. split; [lia|reflexivity]. }
        { right; left. split; [lia|]. exists returncode. split; [exact Hp|reflexivity]. }
        { right; right. repeat split; auto. lia. }
Qed.

(** The process is gone at the [k]-th test and was waited for until then. *)
Lemma wait_loop_exits (w : world) (fuel k : nat) (returncode : Z) :
  waits_until w k -> poll w k = Some returncode -> (k < fuel)%nat ->
  wait_loop w fuel 0 = (repeat (Sleep 5) k, Done (Exited returncode)).
Proof.
  intros Hwait Hpoll Hfuel.
  destruct (wait_loop_cases w fuel 0) as (n & Hbefore & Hend). simpl in *.
  assert (Hn : n = k).
  { destruct (Nat.lt_trichotomy n k) as [Hlt|[Heq|Hgt]]; [|exact Heq|].
    - destruct (Hwait n Hlt) as [Hp Hc].
      destruct Hend as [[Hn _]|[(_ & rc & Hp' & _)|(_ & _ & Hc' & _)]];
        [lia|congruence|congruence].
    - destruct (Hbefore k Hgt) as [Hp _]. congruence. }
  subst n.
  destruct Hend as [[Hn _]|[(_ & rc & Hp' & E)|(_ & Hp' & _)]];
    [lia| |congruence].
  rewrite E. congruence.
Qed.

(** The process is alive at the [k]-th test, the first one past the ceiling. *)
Lemma wait_loop_times_out (w : world) (fuel k : nat) :
  waits_until w k -> poll w k = None -> ceiling_exceeded w k = true -> (k < fuel)%nat ->
  wait_loop w fuel 0
  = ((repeat (Sleep 5) k ++ [Print timed_out_line; Terminate])%list, Done (Returned false)).
Proof.
  intros Hwait Hpoll Hceil Hfuel.
  destruct (wait_loop_cases w fuel 0) as (n & Hbefore & Hend). simpl in *.
  assert (Hn : n = k).
  { destruct (Nat.lt_trichotomy n k) as [Hlt|[Heq|Hgt]]; [|exact Heq|].
    - destruct (Hwait n Hlt) as [Hp Hc].
      destruct Hend as [[Hn _]|[(_ & rc & Hp' & _)|(_ & _ & Hc' & _)]];
        [lia|congruence|congruence].
    - destruct (Hbefore k Hgt) as [_ Hc]. congruence. }
  subst n.
  destruct Hend as [[Hn _]|[(_ & rc & Hp' & _)|(_ & _ & _ & E)]];
    [lia|congruence|exact E].
Qed.

(** With a clock that advances by the 5 seconds slept between two tests,
    the loop is over within 1442 tests and has slept at most 7205 seconds. *)
Lemma wait_loop_bounded (w : world) :
  (forall j, (start_time w + 5 * inject_Z (Z.of_nat j) <= clock w j)%Q) ->
  forall fuel i,
    (i <= 1441)%nat -> (1442 <= i + fuel)%nat ->
    snd (wait_loop w fuel i) <> Pending /\
    (slept (fst (wait_loop w fuel i)) <= 5 * inject_Z (1441 - Z.of_nat i))%Q.
Proof.
  intro Hclock.
  induction fuel as [|fuel IH]; intros i Hi Hfuel; [lia|].
  rewrite wait_loop_step.
  assert (Hroom : (0 <= 5 * inject_Z (1441 - Z.of_nat i))%Q).
  { apply Qmult_le_0_compat; [discriminate|].
    change 0%Q with (inject_Z 0). rewrite <- Zle_Qle. lia. }
  destruct (poll w i) as [returncode|]; [split; [discriminate|exact Hroom]|].
  destruct (ceiling_exceeded w i) eqn:Eceil; [split; [discriminate|exact Hroom]|].
  assert (Hnext : (S i <= 1441)%nat).
  { apply Qltb_false in Eceil. specialize (Hclock i). unfold timeout in Eceil.
    assert (Hq : (inject_Z (Z.of_nat i) <= inject_Z 1440)%Q).
    { change (inject_Z 1440) with 1440%Q. clear - Hclock Eceil.
      revert Hclock Eceil. generalize (inject_Z (Z.of_nat i)), (clock w i), (start_time w).
      intros x c s H1 H2. lra. }
    rewrite <- Zle_Qle in Hq. lia. }
  destruct (IH (S i) Hnext ltac:(lia)) as [Hdone Hslept].
  split; [exact Hdone|]. simpl fst. simpl slept.
  replace (1441 - Z.of_nat (S i)) with ((1441 - Z.of_nat i) + (-1)) in Hslept by lia.
  rewrite inject_Z_plus in Hslept. change (inject_Z (-1)) with (-1)%Q in Hslept.
  revert Hslept. generalize (slept (fst (wait_loop w fuel (S i)))),
                            (inject_Z (1441 - Z.of_nat i)).
  intros x y Hslept. lra.
Qed.

(** ** DownloadSupervisor *)

Lemma model_mapping_cases (model_name : string) :
  (model_name <> "schnell" /\ model_name <> "dev" /\
   dict_get model_mapping model_name = None) \/
  (model_name = "schnell" /\
   dict_get model_mapping model_name = Some "black-forest-labs/FLUX.1-schnell") \/
  (model_name = "dev" /\
   dict_get model_mapping model_name = Some "black-forest-labs/FLUX.1-dev").
Proof.
  unfold model_mapping, dict_get.
  destruct (String.eqb "schnell" model_name) eqn:Es.
  - apply String.eqb_eq in Es. right; left. now split.
  - destruct (String.eqb "dev" model_name) eqn:Ed.
    + apply String.eqb_eq in Ed. right; right. now split.
    + apply String.eqb_neq in Es, Ed. left. repeat split; congruence.
Qed.

Lemma model_mapping_nonempty (model_name huggingface_model : string) :
  dict_get model_mapping model_name = Some huggingface_model ->
  String.eqb huggingface_model "" = false.
Proof.
  destruct (model_mapping_cases model_name) as [(_ & _ & E)|[[_ E]|[_ E]]];
    rewrite E; intro H; inversion H; reflexivity.
Qed.

Lemma bind_log {A : Type} (l1 l2 : list event) (k : unit -> M A) :
  bind (l1, Done tt) (fun _ => bind (l2, Done tt) k) = bind ((l1 ++ l2)%list, Done tt) k.
Proof.
  unfold bind. destruct (k tt) as [log r]. rewrite app_assoc. reflexivity.
Qed.

(** The supervisor once the three calls before the loop have gone through:
    the start-up events, then the loop, then what follows it, all under the
    handler. *)
Lemma download_spawned (w : world) (fuel : nat) (model_name huggingface_model : string) :
  spawns w ->
  dict_get model_mapping model_name = Some huggingface_model ->
  download_model_robust w fuel model_name
  = try_except
      (bind (startup_log w model_name huggingface_model, Done tt)
            (fun _ => left <- wait_loop w fuel 0 ;; conclude w left))
      (fun msg => emit (caught msg) ;; ret false).
Proof.
  intros (Hmk & Hth & Hpo) Hmap.
  unfold download_model_robust, run_download.
  rewrite Hmk, Hmap, (model_mapping_nonempty _ _ Hmap), Hth, Hpo.
  unfold call, startup_log, emit, caught. cbv zeta.
  rewrite !bind_log. reflexivity.
Qed.

Lemma bind_done {A B : Type} (log : list event) (a : A) (k : A -> M B) :
  bind (log, Done a) k = ((log ++ fst (k a))%list, snd (k a)).
Proof.
  unfold bind. destruct (k a) as [log' r]. reflexivity.
Qed.

Lemma conclude_complete (w : world) :
  conclude w (Exited 0)
  = ([Print "PROGRESS: 1.0"; Print "DOWNLOAD_COMPLETE"], Done true).
Proof. reflexivity. Qed.

Lemma conclude_communicate_raises (w : world) (returncode : Z) (msg : string) :
  returncode <> 0 -> communicate_result w = inl msg ->
  conclude w (Exited returncode) = ([], Raised msg).
Proof.
  intros Hrc Hcomm. unfold conclude.
  apply Z.eqb_neq in Hrc. rewrite Hrc, Hcomm. reflexivity.
Qed.

Lemma conclude_failed (w : world) (returncode : Z) (out err : string) :
  returncode <> 0 -> communicate_result w = inr (out, err) ->
  conclude w (Exited returncode) = (failure_report returncode out err, Done false).
Proof.
  intros Hrc Hcomm. unfold conclude.
  apply Z.eqb_neq in Hrc. rewrite Hrc, Hcomm. reflexivity.
Qed.

(** Every run of the supervisor follows one of the paths of [run_shape]. *)
Lemma download_model_robust_shape (w : world) (fuel : nat) (model_name : string) :
  run_shape w fuel model_name (download_model_robust w fuel model_name).
Proof.
  destruct (mkdir_raises w) as [msg|] eqn:Emk.
  { unfold download_model_robust. rewrite Emk.
    apply (shape_mkdir_raises w fuel model_name msg Emk). }
  destruct (dict_get model_mapping model_name) as [huggingface_model|] eqn:Emap.
  2:{ unfold download_model_robust. rewrite Emk, Emap.
      apply (shape_unknown_model w fuel model_name Emk Emap). }
  destruct (thread_start_raises w) as [msg|] eqn:Eth.
  { unfold download_model_robust, run_download.
    rewrite Emk, Emap, (model_mapping_nonempty _ _ Emap), Eth.
    apply (shape_thread_raises w fuel model_name huggingface_model msg Emk Emap Eth). }
  destruct (popen_raises w) as [msg|] eqn:Epo.
  { unfold download_model_robust, run_download.
    rewrite Emk, Emap, (model_mapping_nonempty _ _ Emap), Eth, Epo.
    apply (shape_popen_raises w fuel model_name huggingface_model msg Emk Emap Eth Epo). }
  assert (Hspawn : spawns w) by (repeat split; assumption).
  rewrite (download_spawned w fuel model_name huggingface_model Hspawn Emap).
  destruct (wait_loop_cases w fuel 0) as (n & Hbefore & Hend).
  assert (Hwait : waits_until w n) by (intros i Hi; apply (Hbefore i Hi)).
  simpl in Hend.
  destruct Hend as [[Hn E]|[(Hn & returncode & Hp & E)|(Hn & Hp & Hc & E)]]; rewrite E.
  - subst n. apply (shape_pending w fuel model_name huggingface_model Hspawn Emap Hwait).
  - rewrite bind_done. cbv beta. rewrite bind_done.
    destruct (Z.eq_dec returncode 0) as [Ez|Ez].
    + subst returncode. rewrite conclude_complete.
      apply (shape_complete w fuel model_name huggingface_model n Hspawn Emap Hwait Hn Hp).
    + destruct (communicate_result w) as [msg|[out err]] eqn:Ecomm.
      * rewrite (conclude_communicate_raises w returncode msg Ez Ecomm).
        unfold try_except. simpl fst. simpl snd. cbv iota beta. rewrite !app_nil_r.
        change (emit (caught msg) ;; ret false) with ([caught msg], Done false).
        cbv iota beta. rewrite <- app_assoc.
        apply (shape_communicate_raises w fuel model_name huggingface_model n returncode
                 msg Hspawn Emap Hwait Hn Hp Ez Ecomm).
      * rewrite (conclude_failed w returncode out err Ez Ecomm).
        apply (shape_failed w fuel model_name huggingface_model n returncode out err
                 Hspawn Emap Hwait Hn Hp Ez Ecomm).
  - rewrite bind_done. cbv beta. rewrite bind_done.
    simpl fst. simpl snd. rewrite app_nil_r.
    apply (shape_timed_out w fuel model_name huggingface_model n Hspawn Emap Hwait Hn Hp Hc).
Qed.

Lemma stdout_app (l1 l2 : list event) :
  stdout (l1 ++ l2) = (stdout l1 ++ stdout l2)%list.
Proof.
  induction l1 as [|e l1 IH]; simpl; [reflexivity|].
  destruct (stdout_line e); simpl; rewrite IH; reflexivity.
Qed.

Lemma stdout_sleeps (seconds : Q) (n : nat) : stdout (repeat (Sleep seconds) n) = [].
Proof. induction n as [|n IH]; simpl; auto. Qed.

(** The last lines of a log that ends with the events [tail]. *)
Lemma final_lines_tail (n : nat) (log tail : list event) :
  List.length (stdout tail) = n -> final_lines n (log ++ tail) = stdout tail.
Proof.
  intro Hlen. unfold final_lines.
  rewrite stdout_app, rev_app_distr, firstn_app.
  rewrite length_rev, Hlen, Nat.sub_diag. simpl. rewrite app_nil_r.
  rewrite <- Hlen, <- length_rev, firstn_all. apply rev_involutive.
Qed.

Lemma download_exited (w : world) (fuel : nat) (model_name huggingface_model : string)
      (k : nat) (returncode : Z) :
  spawns w ->
  dict_get model_mapping model_name = Some huggingface_model ->
  waits_until w k -> poll w k = Some returncode -> (k < fuel)%nat ->
  download_model_robust w fuel model_name
  = try_except
      (((startup_log w model_name huggingface_model ++ repeat (Sleep 5) k)
          ++ fst (conclude w (Exited returncode)))%list,
       snd (conclude w (Exited returncode)))
      (fun msg => emit (caught msg) ;; ret false).
Proof.
  intros Hspawn Hmap Hwait Hpoll Hfuel.
  rewrite (download_spawned w fuel model_name huggingface_model Hspawn Hmap).
  rewrite (wait_loop_exits w fuel k returncode Hwait Hpoll Hfuel).
  rewrite bind_done. cbv beta. rewrite bind_done. simpl fst. simpl snd.
  rewrite app_assoc. reflexivity.
Qed.

Lemma download_timed_out (w : world) (fuel : nat) (model_name huggingface_model : string)
      (k : nat) :
  spawns w ->
  dict_get model_mapping model_name = Some huggingface_model ->
  waits_until w k -> poll w k = None -> ceiling_exceeded w k = true -> (k < fuel)%nat ->
  download_model_robust w fuel model_name
  = (((startup_log w model_name huggingface_model ++ repeat (Sleep 5) k)
        ++ [Print timed_out_line; Terminate])%list,
     Done false).
Proof.
  intros Hspawn Hmap Hwait Hpoll Hceil Hfuel.
  rewrite (download_spawned w fuel model_name huggingface_model Hspawn Hmap).
  rewrite (wait_loop_times_out w fuel k Hwait Hpoll Hceil Hfuel).
  rewrite bind_done. cbv beta. rewrite bind_done. simpl fst. simpl snd.
  rewrite app_nil_r, app_assoc. reflexivity.
Qed.

Lemma known_model_resolves (model_name : string) :
  model_name = "schnell" \/ model_name = "dev" ->
  exists huggingface_model, dict_get model_mapping model_name = Some huggingface_model.
Proof.
  intros [H|H]; subst model_name; eexists; reflexivity.
Qed.

(** C2, as stated, does not hold: the process exits with code 0 within the
    ceiling and the supervisor returns [True], its last line is
    [DOWNLOAD_COMPLETE], but the line before it is the literal
    [PROGRESS: 1.0], not the two-decimal [PROGRESS: 1.00]. *)
Lemma success_line_is_not_two_decimals :
  let w := exiting_world 0 in
  let r := download_model_robust w 2 "dev" in
  spawns w /\ waits_until w 1 /\ poll w 1 = Some 0 /\
  snd r = Done true /\
  progress_line 1 = "PROGRESS: 1.00" /\
  final_lines 2 (fst r) <> [progress_line 1; "DOWNLOAD_COMPLETE"].
Proof.
  intros w r.
  split; [repeat split|].
  split; [intros [|i] Hi; [split; reflexivity|lia]|].
  split; [reflexivity|].
  split; [vm_compute; reflexivity|].
  split; [vm_compute; reflexivity|].
  vm_compute. discriminate.
Qed.

(** C2, amended.  If the process is found gone with return code 0 at some
    test of the loop, every earlier test having found it alive within the
    ceiling, the supervisor returns [True] and its last two lines are the
    literal [PROGRESS: 1.0] and then [DOWNLOAD_COMPLETE]. *)
Theorem success_ends_with_complete
        (w : world) (fuel : nat) (model_name : string) (k : nat) :
  spawns w ->
  model_name = "schnell" \/ model_name = "dev" ->
  waits_until w k -> poll w k = Some 0 -> (k < fuel)%nat ->
  snd (download_model_robust w fuel model_name) = Done true /\
  final_lines 2 (fst (download_model_robust w fuel model_name))
  = ["PROGRESS: 1.0"; "DOWNLOAD_COMPLETE"] /\
  terminal_tokens (fst (download_model_robust w fuel model_name)) = ["DOWNLOAD_COMPLETE"].
Proof.
  intros Hspawn Hknown Hwait Hpoll Hfuel.
  destruct (known_model_resolves model_name Hknown) as [huggingface_model Hmap].
  rewrite (download_exited w fuel model_name huggingface_model k 0
             Hspawn Hmap Hwait Hpoll Hfuel).
  rewrite conclude_complete. unfold try_except. cbn [fst snd].
  split; [reflexivity|]. split.
  - apply final_lines_tail. reflexivity.
  - unfold terminal_tokens. rewrite !stdout_app, stdout_sleeps. reflexivity.
Qed.

Lemma success_ends_with_complete_witness :
  snd (download_model_robust (exiting_world 0) 2 "dev") = Done true /\
  final_lines 2 (fst (download_model_robust (exiting_world 0) 2 "dev"))
  = ["PROGRESS: 1.0"; "DOWNLOAD_COMPLETE"].
Proof.
  assert (Hspawn : spawns (exiting_world 0)) by (repeat split).
  assert (Hwait : waits_until (exiting_world 0) 1).
  { intros [|i] Hi; [split; reflexivity|lia]. }
  destruct (success_ends_with_complete (exiting_world 0) 2 "dev" 1
              Hspawn (or_intror eq_refl) Hwait eq_refl (Nat.lt_succ_diag_r 1))
    as (Hret & Hlines & _).
  split; assumption.
Defined.

(** C4. If the process is found gone with a nonzero return code (every
    earlier test having found it alive within the ceiling) and
    [communicate()] hands back its remaining standard output and standard
    error, the supervisor returns [False] and its last three lines are the
    [DOWNLOAD_ERROR] line with the return code, the [STDOUT:] line and the
    [STDERR:] line with the captured streams. *)
Theorem nonzero_exit_reports_failure
        (w : world) (fuel : nat) (model_name : string) (k : nat)
        (returncode : Z) (out err : string) :
  spawns w ->
  model_name = "schnell" \/ model_name = "dev" ->
  waits_until w k -> poll w k = Some returncode -> returncode <> 0 ->
  communicate_result w = inr (out, err) ->
  (k < fuel)%nat ->
  snd (download_model_robust w fuel model_name) = Done false /\
  final_lines 3 (fst (download_model_robust w fuel model_name))
  = [ "DOWNLOAD_ERROR: Download failed with return code " ++ str_of_int returncode;
      "STDOUT: " ++ out;
      "STDERR: " ++ err ] /\
  terminal_tokens (fst (download_model_robust w fuel model_name))
  = [ "DOWNLOAD_ERROR: Download failed with return code " ++ str_of_int returncode ] /\
  In Communicate (fst (download_model_robust w fuel model_name)).
Proof.
  intros Hspawn Hknown Hwait Hpoll Hrc Hcomm Hfuel.
  destruct (known_model_resolves model_name Hknown) as [huggingface_model Hmap].
  rewrite (download_exited w fuel model_name huggingface_model k returncode
             Hspawn Hmap Hwait Hpoll Hfuel).
  rewrite (conclude_failed w returncode out err Hrc Hcomm).
  unfold try_except. cbn [fst snd].
  split; [reflexivity|]. split; [|split].
  - apply final_lines_tail. reflexivity.
  - unfold terminal_tokens. rewrite !stdout_app, stdout_sleeps. reflexivity.
  - apply in_or_app. right. left. reflexivity.
Qed.

Lemma nonzero_exit_reports_failure_witness :
  snd (download_model_robust (exiting_world 1) 2 "schnell") = Done false /\
  final_lines 3 (fst (download_model_robust (exiting_world 1) 2 "schnell"))
  = [ "DOWNLOAD_ERROR: Download failed with return code 1";
      "STDOUT: ";
      "STDERR: Repository Not Found" ].
Proof.
  assert (Hspawn : spawns (exiting_world 1)) by (repeat split).
  assert (Hwait : waits_until (exiting_world 1) 1).
  { intros [|i] Hi; [split; reflexivity|lia]. }
  assert (Hrc : 1 <> 0) by lia.
  destruct (nonzero_exit_reports_failure (exiting_world 1) 2 "schnell" 1 1
              "" "Repository Not Found"
              Hspawn (or_introl eq_refl) Hwait eq_refl Hrc eq_refl (Nat.lt_succ_diag_r 1))
    as (Hret & Hlines & _).
  split; assumption.
Defined.

(** With a clock that advances by the 5 seconds slept between two tests, no
    more than 1441 tests can find the process alive within the ceiling. *)
Lemma waits_until_bounded (w : world) (k : nat) :
  (forall j, (start_time w + 5 * inject_Z (Z.of_nat j) <= clock w j)%Q) ->
  waits_until w k -> (k <= 1441)%nat.
Proof.
  intros Hclock Hwait.
  destruct (Nat.le_gt_cases k 1441) as [Hle|Hgt]; [exact Hle|exfalso].
  destruct (Hwait 1441%nat Hgt) as [_ Hceil].
  apply Qltb_false in Hceil. unfold timeout in Hceil.
  specialize (Hclock 1441%nat).
  change (inject_Z (Z.of_nat 1441)) with 1441%Q in Hclock.
  revert Hclock Hceil. generalize (clock w 1441), (start_time w).
  intros c s H1 H2. lra.
Qed.

(** C3. If a test of the loop finds the process alive with more than 7200
    seconds elapsed (every earlier test having found it alive within the
    ceiling), the supervisor prints the [DOWNLOAD_ERROR] time-out line,
    calls [terminate()] and returns [False], and [main] exits with status 1.
    Each pass of the loop makes one liveness test and one reading of the
    clock, so with a clock that advances by the 5 seconds slept between two
    tests the loop is over within 1442 tests, having slept at most 7205
    seconds. *)
Theorem timeout_terminates_and_fails
        (w : world) (fuel : nat) (model_name prog : string) (k : nat) :
  (spawns w ->
   model_name = "schnell" \/ model_name = "dev" ->
   waits_until w k -> poll w k = None -> ceiling_exceeded w k = true ->
   (k < fuel)%nat ->
   snd (download_model_robust w fuel model_name) = Done false /\
   final_lines 1 (fst (download_model_robust w fuel model_name)) = [timed_out_line] /\
   terminal_tokens (fst (download_model_robust w fuel model_name)) = [timed_out_line] /\
   terminated (fst (download_model_robust w fuel model_name)) = true /\
   last (fst (download_model_robust w fuel model_name)) (Sleep 0) = Terminate /\
   snd (main w fuel [prog; model_name]) = Done 1) /\
  ((forall j, (start_time w + 5 * inject_Z (Z.of_nat j) <= clock w j)%Q) ->
   (1442 <= fuel)%nat ->
   snd (wait_loop w fuel 0) <> Pending /\
   (slept (fst (wait_loop w fuel 0)) <= 7205)%Q /\
   snd (download_model_robust w fuel model_name) <> Pending).
Proof.
  split.
  - intros Hspawn Hknown Hwait Hpoll Hceil Hfuel.
    destruct (known_model_resolves model_name Hknown) as [huggingface_model Hmap].
    assert (E := download_timed_out w fuel model_name huggingface_model k
                   Hspawn Hmap Hwait Hpoll Hceil Hfuel).
    unfold main. cbn [List.length Nat.eqb negb nth].
    rewrite E. cbn [fst snd].
    split; [reflexivity|]. split; [|split; [|split; [|split]]].
    + rewrite (final_lines_tail 1 _ [Print timed_out_line; Terminate]); reflexivity.
    + unfold terminal_tokens. rewrite !stdout_app, stdout_sleeps. reflexivity.
    + unfold terminated. rewrite existsb_app. apply orb_true_r.
    + change [Print timed_out_line; Terminate]
        with ([Print timed_out_line] ++ [Terminate])%list.
      rewrite app_assoc. apply last_last.
    + rewrite bind_done. reflexivity.
  - intros Hclock Hfuel.
    destruct (wait_loop_bounded w Hclock fuel 0) as [Hdone Hslept]; [lia|lia|].
    split; [exact Hdone|]. split; [exact Hslept|].
    destruct (download_model_robust_shape w fuel model_name); cbn [snd]; try discriminate.
    match goal with H : waits_until w fuel |- _ =>
      apply (waits_until_bounded w fuel Hclock) in H end.
    lia.
Qed.

Lemma timeout_terminates_and_fails_witness :
  snd (download_model_robust hanging_world 1442 "dev") = Done false /\
  snd (main hanging_world 1442 ["robust_download.py"; "dev"]) = Done 1 /\
  snd (wait_loop hanging_world 1442 0) <> Pending.
Proof.
  destruct (timeout_terminates_and_fails hanging_world 1442 "dev" "robust_download.py" 1441)
    as [Htimeout Hbounded].
  assert (Hspawn : spawns hanging_world) by (repeat split).
  assert (Hwait : waits_until hanging_world 1441).
  { intros i Hi. split; [reflexivity|].
    apply Qltb_false. unfold timeout. cbn [clock start_time hanging_world].
    assert (Hq : (inject_Z (Z.of_nat i) <= inject_Z 1440)%Q)
      by (rewrite <- Zle_Qle; lia).
    change (inject_Z 1440) with 1440%Q in Hq.
    revert Hq. generalize (inject_Z (Z.of_nat i)). intros x Hq. lra. }
  assert (Hceil : ceiling_exceeded hanging_world 1441 = true) by (vm_compute; reflexivity).
  assert (Hclock : forall j,
             (start_time hanging_world + 5 * inject_Z (Z.of_nat j)
              <= clock hanging_world j)%Q)
    by (intro j; apply Qle_refl).
  destruct (Htimeout Hspawn (or_intror eq_refl) Hwait eq_refl Hceil (Nat.lt_succ_diag_r 1441))
    as (Hret & _ & _ & _ & _ & Hexit).
  destruct (Hbounded Hclock (Nat.le_refl 1442)) as (Hloop & _).
  repeat split; assumption.
Defined.

(** ** Terminal tokens *)

Lemma terminal_tokens_app (l1 l2 : list event) :
  terminal_tokens (l1 ++ l2) = (terminal_tokens l1 ++ terminal_tokens l2)%list.
Proof.
  unfold terminal_tokens. rewrite stdout_app. apply filter_app.
Qed.

Lemma terminal_tokens_sleeps (n : nat) : terminal_tokens (repeat (Sleep 5) n) = [].
Proof.
  unfold terminal_tokens. rewrite stdout_sleeps. reflexivity.
Qed.

Lemma terminal_tokens_startup (w : world) (model_name huggingface_model : string) (n : nat) :
  terminal_tokens (firstn n (startup_log w model_name huggingface_model)) = [].
Proof.
  unfold startup_log.
  do 12 (destruct n as [|n]; [reflexivity|]).
  destruct n; reflexivity.
Qed.

Lemma terminal_tokens_startup_all (w : world) (model_name huggingface_model : string) :
  terminal_tokens (startup_log w model_name huggingface_model) = [].
Proof. reflexivity. Qed.

(** What a run has printed as terminal tokens, by the way it ended. *)
Lemma shape_terminal (w : world) (fuel : nat) (model_name : string) (r : M bool) :
  run_shape w fuel model_name r ->
  (snd r = Pending /\ terminal_tokens (fst r) = [] /\ spawns w /\ waits_until w fuel) \/
  (snd r = Done true /\ terminal_tokens (fst r) = ["DOWNLOAD_COMPLETE"]) \/
  (snd r = Done false /\
   exists reason, terminal_tokens (fst r) = ["DOWNLOAD_ERROR: " ++ reason]).
Proof.
  intro Hshape.
  destruct Hshape; cbn [fst snd];
    rewrite ?terminal_tokens_app, ?terminal_tokens_sleeps, ?terminal_tokens_startup,
            ?terminal_tokens_startup_all.
  - right; right. split; [reflexivity|]. exists msg. reflexivity.
  - right; right. split; [reflexivity|]. exists ("Unknown model " ++ model_name).
    reflexivity.
  - right; right. split; [reflexivity|]. exists msg. reflexivity.
  - right; right. split; [reflexivity|]. exists msg. reflexivity.
  - left. split; [reflexivity|]. split; [reflexivity|]. split; assumption.
  - right; right. split; [reflexivity|]. exists "Download timed out after 2 hours".
    reflexivity.
  - right; left. split; reflexivity.
  - right; right. split; [reflexivity|]. exists msg. reflexivity.
  - right; right. split; [reflexivity|].
    exists ("Download failed with return code " ++ str_of_int returncode).
    reflexivity.
Qed.

(** C5. Whatever the world answers, [download_model_robust] lets no
    exception escape.  As long as it has not returned it is inside the wait
    loop, the process alive within the ceiling, with no terminal token
    printed; once it has returned it has printed exactly one terminal token:
    [DOWNLOAD_COMPLETE] with [True], a [DOWNLOAD_ERROR] line with [False].
    An exception raised by [mkdir], by the start of the thread, by [Popen]
    or by [communicate()] ends the run with [False] and the single terminal
    token [DOWNLOAD_ERROR: <message>], printed last. *)
Theorem supervisor_catches_every_exception
        (w : world) (fuel : nat) (model_name : string) :
  let r := download_model_robust w fuel model_name in
  (forall msg, snd r <> Raised msg) /\
  ((snd r = Pending /\ terminal_tokens (fst r) = [] /\ spawns w /\ waits_until w fuel) \/
   (snd r = Done true /\ terminal_tokens (fst r) = ["DOWNLOAD_COMPLETE"]) \/
   (snd r = Done false /\
    exists reason, terminal_tokens (fst r) = ["DOWNLOAD_ERROR: " ++ reason])) /\
  (forall msg,
      raises w fuel model_name msg ->
      snd r = Done false /\
      terminal_tokens (fst r) = ["DOWNLOAD_ERROR: " ++ msg] /\
      last (fst r) (Sleep 0) = caught msg).
Proof.
  intro r. split; [|split].
  - intro msg. unfold r.
    destruct (download_model_robust_shape w fuel model_name); discriminate.
  - apply (shape_terminal w fuel model_name r).
    apply download_model_robust_shape.
  - intros msg Hraises. unfold r. clear r.
    destruct Hraises as [Hmk|(Hmk & Hknown & Hrest)].
    { unfold download_model_robust. rewrite Hmk. repeat split. }
    destruct (known_model_resolves model_name Hknown) as [huggingface_model Hmap].
    assert (Hne := model_mapping_nonempty _ _ Hmap).
    destruct Hrest as [Hth|(Hth & [Hpo|(Hpo & k & returncode & Hwait & Hfuel & Hpoll
                                         & Hrc & Hcomm)])].
    + unfold download_model_robust, run_download. rewrite Hmk, Hmap, Hne, Hth.
      repeat split.
    + unfold download_model_robust, run_download. rewrite Hmk, Hmap, Hne, Hth, Hpo.
      repeat split.
    + assert (Hspawn : spawns w) by (repeat split; assumption).
      rewrite (download_exited w fuel model_name huggingface_model k returncode
                 Hspawn Hmap Hwait Hpoll Hfuel).
      rewrite (conclude_communicate_raises w returncode msg Hrc Hcomm).
      unfold try_except. cbn [fst snd].
      change (emit (caught msg) ;; ret false) with ([caught msg], Done false).
      cbv iota beta. cbn [fst snd]. rewrite app_nil_r.
      split; [reflexivity|]. split.
      * rewrite !terminal_tokens_app, terminal_tokens_sleeps,
          terminal_tokens_startup_all.
        reflexivity.
      * apply last_last.
Qed.

Lemma supervisor_catches_every_exception_witness :
  snd (download_model_robust no_cli_world 10 "dev") = Done false /\
  terminal_tokens (fst (download_model_robust no_cli_world 10 "dev"))
  = ["DOWNLOAD_ERROR: [Errno 2] No such file or directory: 'huggingface-cli'"].
Proof.
  destruct (supervisor_catches_every_exception no_cli_world 10 "dev") as (_ & _ & Hcaught).
  assert (Hraises : raises no_cli_world 10 "dev"
                      "[Errno 2] No such file or directory: 'huggingface-cli'").
  { right. split; [reflexivity|]. split; [right; reflexivity|].
    right. split; [reflexivity|]. left. reflexivity. }
  destruct (Hcaught _ Hraises) as (Hret & Htokens & _).
  split; assumption.
Defined.

(** C6. For a model identifier other than ["schnell"] and ["dev"] the
    supervisor returns [False] without spawning the download process and
    without starting the sampler: it prints its two opening lines, creates
    the cache directory and prints [DOWNLOAD_ERROR: Unknown model <name>]
    (or, when creating the directory raises, the handler's line), and
    nothing else happens. *)
Theorem unknown_model_fails_before_spawn
        (w : world) (fuel : nat) (model_name : string) :
  model_name <> "schnell" -> model_name <> "dev" ->
  let r := download_model_robust w fuel model_name in
  snd r = Done false /\
  spawned (fst r) = false /\
  monitor_started (fst r) = false /\
  fst r
  = ([Print "DOWNLOAD_START"; Print ("Downloading model: " ++ model_name)]
     ++ match mkdir_raises w with
        | None => [Mkdir (cache_dir w);
                   Print ("DOWNLOAD_ERROR: Unknown model " ++ model_name)]
        | Some msg => [caught msg]
        end)%list.
Proof.
  intros Hs Hd r. unfold r. clear r.
  destruct (model_mapping_cases model_name) as [(_ & _ & Hmap)|[[E _]|[E _]]];
    [|contradiction|contradiction].
  unfold download_model_robust. rewrite Hmap.
  destruct (mkdir_raises w) as [msg|]; repeat split.
Qed.

Lemma unknown_model_fails_before_spawn_witness :
  download_model_robust hanging_world 10 "sdxl"
  = ([Print "DOWNLOAD_START"; Print "Downloading model: sdxl";
      Mkdir "/Users/flux/.cache/mflux";
      Print "DOWNLOAD_ERROR: Unknown model sdxl"],
     Done false).
Proof.
  assert (Hs : "sdxl" <> "schnell") by discriminate.
  assert (Hd : "sdxl" <> "dev") by discriminate.
  destruct (unknown_model_fails_before_spawn hanging_world 10 "sdxl" Hs Hd)
    as (Hret & _ & _ & Hlog).
  rewrite (surjective_pairing (download_model_robust hanging_world 10 "sdxl")).
  rewrite Hret, Hlog. reflexivity.
Defined.

(** C7. With a number of command-line arguments other than one (that is,
    [len(sys.argv) != 2]) [main] prints the usage line and exits with
    status 1, and nothing is spawned.  With exactly one argument it runs the
    supervisor on it and exits with status 0 when the supervisor returns
    [True], with status 1 when it returns [False]. *)
Theorem cli_arity_and_exit_status (w : world) (fuel : nat) (argv : list string) :
  (List.length argv <> 2%nat ->
   main w fuel argv = ([Print "Usage: python robust_download.py <model_name>"], Done 1) /\
   spawned (fst (main w fuel argv)) = false) /\
  (forall prog model_name,
      argv = [prog; model_name] ->
      fst (main w fuel argv) = fst (download_model_robust w fuel model_name) /\
      (snd (download_model_robust w fuel model_name) = Done true ->
       snd (main w fuel argv) = Done 0) /\
      (snd (download_model_robust w fuel model_name) = Done false ->
       snd (main w fuel argv) = Done 1)).
Proof.
  split.
  - intro Hlen. unfold main.
    apply Nat.eqb_neq in Hlen. rewrite Hlen. split; reflexivity.
  - intros prog model_name Hargv. subst argv.
    unfold main. cbn [List.length Nat.eqb negb nth].
    destruct (download_model_robust w fuel model_name) as [log [success|msg|]];
      cbn [fst snd].
    + rewrite bind_done. destruct success; cbn [fst snd negb];
        rewrite app_nil_r; repeat split; intro H; try reflexivity; discriminate H.
    + repeat split; intro H; discriminate H.
    + repeat split; intro H; discriminate H.
Qed.

Lemma cli_arity_and_exit_status_witness :
  main hanging_world 10 ["robust_download.py"]
  = ([Print "Usage: python robust_download.py <model_name>"], Done 1) /\
  main hanging_world 10 ["robust_download.py"; "schnell"; "dev"]
  = ([Print "Usage: python robust_download.py <model_name>"], Done 1) /\
  snd (main (exiting_world 0) 2 ["robust_download.py"; "dev"]) = Done 0 /\
  snd (main (exiting_world 1) 2 ["robust_download.py"; "dev"]) = Done 1.
Proof.
  assert (H1 : List.length ["robust_download.py"] <> 2%nat) by discriminate.
  assert (H3 : List.length ["robust_download.py"; "schnell"; "dev"] <> 2%nat)
    by discriminate.
  split; [|split; [|split]].
  - apply (cli_arity_and_exit_status hanging_world 10 ["robust_download.py"]). exact H1.
  - apply (cli_arity_and_exit_status hanging_world 10
             ["robust_download.py"; "schnell"; "dev"]).
    exact H3.
  - apply (cli_arity_and_exit_status (exiting_world 0) 2 ["robust_download.py"; "dev"]
             : _ /\ _) with (prog := "robust_download.py") (model_name := "dev");
      reflexivity.
  - apply (cli_arity_and_exit_status (exiting_world 1) 2 ["robust_download.py"; "dev"]
             : _ /\ _) with (prog := "robust_download.py") (model_name := "dev");
      reflexivity.
Defined.

(** ** One job on one standard output *)

Lemma merged_projections (started : bool) (fg bg : list event) (s : list (thread * event)) :
  merged started fg bg s ->
  foreground_events s = fg /\ background_events s = bg.
Proof.
  unfold foreground_events, background_events.
  induction 1 as [started|started e fg bg s _ [IHf IHb]|e fg bg s _ [IHf IHb]]; simpl.
  - split; reflexivity.
  - rewrite IHf, IHb. split; reflexivity.
  - rewrite IHf, IHb. split; reflexivity.
Qed.

(** C8, as stated, does not hold.  In this schedule of a successful job the
    consumer reads the fractions 0.05, 0.01, 0.1, 0.2, 1.0, 0.02, which are
    not non-decreasing, and the last line of the stream is a progress line
    of the sampler, not the terminal token. *)
Lemma job_stream_regresses_after_terminal_token :
  job_stream (exiting_world 0) 2 "dev" early_samples late_progress_stream /\
  stream_lines late_progress_stream
  = [ "DOWNLOAD_START"; "Downloading model: dev"; "PROGRESS: 0.05";
      "Starting robust download with huggingface-cli..."; "PROGRESS: 0.01";
      "PROGRESS: 0.1"; "Initializing download..."; "PROGRESS: 0.2";
      "Executing download command...";
      "Command: huggingface-cli download black-forest-labs/FLUX.1-dev --local-dir /Users/flux/.cache/mflux/dev --local-dir-use-symlinks False --resume-download --quiet";
      "PROGRESS: 1.0"; "DOWNLOAD_COMPLETE"; "PROGRESS: 0.02" ] /\
  nondecreasingb (progress_values (stream_lines late_progress_stream)) = false /\
  terminal_is_last (stream_lines late_progress_stream) = false.
Proof.
  split; [|split; [|split]].
  - unfold job_stream. vm_compute. repeat constructor.
  - vm_compute. reflexivity.
  - vm_compute. reflexivity.
  - vm_compute. reflexivity.
Qed.

Lemma is_detail_stdout (out : string) : is_detail ("STDOUT: " ++ out) = true.
Proof. destruct out; reflexivity. Qed.

Lemma is_detail_stderr (err : string) : is_detail ("STDERR: " ++ err) = true.
Proof. destruct err; reflexivity. Qed.

Lemma prefix_cons (a b : ascii) (s1 s2 : string) :
  String.prefix (String a s1) (String b s2)
  = if ascii_dec a b then String.prefix s1 s2 else false.
Proof. reflexivity. Qed.

Lemma detail_not_terminal (line : string) :
  is_detail line = true -> is_terminal line = false.
Proof.
  intro H. destruct line as [|c line]; [discriminate H|].
  unfold is_terminal, is_detail in *. rewrite !prefix_cons in *.
  destruct (ascii_dec "D" c) as [E|E]; [|reflexivity].
  subst c. destruct (ascii_dec "S" "D") as [E|E]; [discriminate E|discriminate H].
Qed.

(** The lines of a finished run: one terminal token, with no terminal token
    before it and only detail lines after it. *)
Lemma shape_stdout (w : world) (fuel : nat) (model_name : string) (r : M bool) :
  run_shape w fuel model_name r ->
  snd r <> Pending ->
  exists before token details,
    stdout (fst r) = (before ++ token :: details)%list /\
    is_terminal token = true /\
    filter is_terminal before = [] /\
    forallb is_detail details = true.
Proof.
  intros Hshape Hdone.
  destruct Hshape; cbn [fst snd] in *; rewrite ?stdout_app, ?stdout_sleeps.
  - exists ["DOWNLOAD_START"; "Downloading model: " ++ model_name],
      ("DOWNLOAD_ERROR: " ++ msg), [].
    repeat split; reflexivity.
  - exists ["DOWNLOAD_START"; "Downloading model: " ++ model_name],
      ("DOWNLOAD_ERROR: Unknown model " ++ model_name), [].
    repeat split; reflexivity.
  - exists (stdout (firstn 5 (startup_log w model_name huggingface_model))),
      ("DOWNLOAD_ERROR: " ++ msg), [].
    repeat split; reflexivity.
  - exists (stdout (firstn 11 (startup_log w model_name huggingface_model))),
      ("DOWNLOAD_ERROR: " ++ msg), [].
    repeat split; reflexivity.
  - congruence.
  - exists (stdout (startup_log w model_name huggingface_model)), timed_out_line, [].
    repeat split; reflexivity.
  - exists (stdout (startup_log w model_name huggingface_model) ++ ["PROGRESS: 1.0"])%list,
      "DOWNLOAD_COMPLETE", [].
    repeat split; reflexivity.
  - exists (stdout (startup_log w model_name huggingface_model)),
      ("DOWNLOAD_ERROR: " ++ msg), [].
    repeat split; reflexivity.
  - exists (stdout (startup_log w model_name huggingface_model)),
      ("DOWNLOAD_ERROR: Download failed with return code " ++ str_of_int returncode),
      ["STDOUT: " ++ out; "STDERR: " ++ err].
    repeat split; try reflexivity.
    cbn [forallb]. rewrite is_detail_stdout, is_detail_stderr. reflexivity.
Qed.

(** The fractions of the supervisor's own progress lines never decrease. *)
Lemma shape_progress (w : world) (fuel : nat) (model_name : string) (r : M bool) :
  run_shape w fuel model_name r ->
  nondecreasingb (progress_values (stdout (fst r))) = true.
Proof.
  intro Hshape.
  destruct Hshape; cbn [fst snd]; rewrite ?stdout_app, ?stdout_sleeps; reflexivity.
Qed.

(** C8, amended.  In every stream of a job, each of the two emitters keeps
    its own order: the fractions printed by the sampler increase strictly,
    the fractions of the supervisor's own progress lines never decrease, and
    once the supervisor has returned its lines hold exactly one terminal
    token, followed by nothing but the [STDOUT:] and [STDERR:] lines of a
    nonzero exit. *)
Theorem job_stream_ordered_per_emitter
        (w : world) (fuel : nat) (model_name : string)
        (samples : list sample) (s : list (thread * event)) :
  job_stream w fuel model_name samples s ->
  foreground_events s = fst (download_model_robust w fuel model_name) /\
  background_events s = monitor_download_progress model_name samples /\
  StronglySorted Qlt (emitted_fractions (background_events s)) /\
  nondecreasingb (progress_values (stdout (foreground_events s))) = true /\
  (snd (download_model_robust w fuel model_name) <> Pending ->
   exists before token details,
     stdout (foreground_events s) = (before ++ token :: details)%list /\
     terminal_tokens (foreground_events s) = [token] /\
     forallb is_detail details = true).
Proof.
  intro Hstream.
  destruct (merged_projections _ _ _ _ Hstream) as [Hfg Hbg].
  rewrite Hfg, Hbg.
  assert (Hshape := download_model_robust_shape w fuel model_name).
  split; [reflexivity|]. split; [reflexivity|]. split; [|split].
  - apply (monitor_loop_increasing (expected_size_bytes model_name) samples 0%Q).
  - apply (shape_progress w fuel model_name _ Hshape).
  - intro Hdone.
    destruct (shape_stdout w fuel model_name _ Hshape Hdone)
      as (before & token & details & Hlines & Htoken & Hbefore & Hdetails).
    exists before, token, details.
    split; [exact Hlines|]. split; [|exact Hdetails].
    unfold terminal_tokens. rewrite Hlines, filter_app. simpl.
    rewrite Hbefore, Htoken. simpl. f_equal.
    clear - Hdetails. induction details as [|line details IH]; [reflexivity|].
    simpl in *. apply andb_prop in Hdetails. destruct Hdetails as [Hline Hrest].
    rewrite (detail_not_terminal line Hline). apply IH. exact Hrest.
Qed.

Lemma job_stream_ordered_per_emitter_witness :
  StronglySorted Qlt (emitted_fractions (background_events late_progress_stream)) /\
  nondecreasingb (progress_values (stdout (foreground_events late_progress_stream))) = true /\
  terminal_tokens (foreground_events late_progress_stream) = ["DOWNLOAD_COMPLETE"].
Proof.
  assert (Hstream : job_stream (exiting_world 0) 2 "dev" early_samples late_progress_stream)
    by (unfold job_stream; vm_compute; repeat constructor).
  destruct (job_stream_ordered_per_emitter
              (exiting_world 0) 2 "dev" early_samples late_progress_stream Hstream)
    as (_ & _ & Hsorted & Hprogress & Hterminal).
  split; [exact Hsorted|]. split; [exact Hprogress|].
  vm_compute. reflexivity.
Defined.

(** * Further properties of the code *)

(** ** The scan of the cache roots *)

Lemma sum_files_acc (files : list file_entry) :
  forall total_size, sum_files files total_size = total_size + sum_files files 0.
Proof.
  unfold sum_files.
  induction files as [|f files IH]; intro total_size; simpl; [lia|].
  destruct (fe_exists f); [|apply IH].
  rewrite IH. rewrite (IH (fe_size f)). lia.
Qed.

Lemma sum_walk_acc (walk : list (list file_entry)) :
  forall total_size, sum_walk walk total_size = total_size + sum_walk walk 0.
Proof.
  unfold sum_walk.
  induction walk as [|files walk IH]; intro total_size; simpl; [lia|].
  rewrite IH. rewrite (IH (sum_files files 0)).
  rewrite (sum_files_acc files total_size). lia.
Qed.

(** The contribution of one cache root to the total. *)
Lemma sum_cache_dirs_cons (root : cache_root) (cache_dirs : list cache_root) :
  sum_cache_dirs (root :: cache_dirs)
  = (if root_exists root then sum_walk (root_walk root) 0 else 0)
    + sum_cache_dirs cache_dirs.
Proof.
  unfold sum_cache_dirs. simpl.
  set (f := fun acc r => if root_exists r then sum_walk (root_walk r) acc else acc).
  assert (Hacc : forall l a, fold_left f l a = a + fold_left f l 0).
  { induction l as [|r l IH]; intro a; simpl; [lia|].
    rewrite IH. rewrite (IH (f 0 r)). unfold f.
    destruct (root_exists r); [|lia].
    rewrite (sum_walk_acc (root_walk r) a). lia. }
  rewrite Hacc. reflexivity.
Qed.

(** X1. The total of a scan is the sum of what each candidate root holds:
    a root that does not exist adds nothing, a file that no longer exists
    when it is tested adds nothing, and nothing is deduplicated, so a tree
    that is reached through two of the candidate roots is counted twice. *)
Theorem cache_total_is_plain_sum (l1 l2 : list cache_root) (walk : list (list file_entry))
        (files : list file_entry) :
  sum_cache_dirs (l1 ++ l2) = sum_cache_dirs l1 + sum_cache_dirs l2 /\
  sum_cache_dirs (l1 ++ l1) = 2 * sum_cache_dirs l1 /\
  sum_cache_dirs ({| root_exists := false; root_walk := walk |} :: l1) = sum_cache_dirs l1 /\
  sum_cache_dirs (filter root_exists l1) = sum_cache_dirs l1 /\
  sum_files (filter fe_exists files) 0 = sum_files files 0.
Proof.
  assert (Happ : forall a b, sum_cache_dirs (a ++ b) = sum_cache_dirs a + sum_cache_dirs b).
  { induction a as [|r a IH]; intro b; [reflexivity|].
    rewrite <- app_comm_cons, !sum_cache_dirs_cons, IH. lia. }
  split; [apply Happ|]. split; [rewrite Happ; lia|]. split; [|split].
  - rewrite sum_cache_dirs_cons. reflexivity.
  - induction l1 as [|r l1 IH]; [reflexivity|]. simpl.
    destruct (root_exists r) eqn:E.
    + rewrite !sum_cache_dirs_cons, E, IH. reflexivity.
    + rewrite sum_cache_dirs_cons, E, IH. reflexivity.
  - induction files as [|f files IH]; [reflexivity|]. simpl.
    unfold sum_files in *. destruct (fe_exists f) eqn:E; simpl; rewrite ?E.
    + fold (sum_files (filter fe_exists files) (0 + fe_size f)).
      fold (sum_files files (0 + fe_size f)).
      rewrite (sum_files_acc (filter fe_exists files)), (sum_files_acc files).
      unfold sum_files. rewrite IH. reflexivity.
    + exact IH.
Qed.

(** ** The state of the sampler *)

Lemma monitor_loop_app (expected : Q) (l1 l2 : list sample) :
  forall last_progress,
    monitor_loop expected last_progress (l1 ++ l2)
    = (monitor_loop expected last_progress l1
       ++ monitor_loop expected (last_progress_after expected last_progress l1) l2)%list.
Proof.
  induction l1 as [|s l1 IH]; intro last_progress; [reflexivity|].
  rewrite <- app_comm_cons, !monitor_loop_cons, IH, app_assoc. reflexivity.
Qed.

Lemma last_cons_default {A : Type} (a d : A) (l : list A) :
  last (a :: l) d = last l a.
Proof.
  assert (Hdefault : forall (l : list A) (b d1 d2 : A), last (b :: l) d1 = last (b :: l) d2).
  { clear. induction l as [|c l IH]; intros b d1 d2; [reflexivity|].
    change (last (c :: l) d1 = last (c :: l) d2). apply IH. }
  destruct l as [|b l]; [reflexivity|].
  change (last (b :: l) d = last (b :: l) a). apply Hdefault.
Qed.

Lemma last_satisfies {A : Type} (P : A -> Prop) (l : list A) (d : A) :
  Forall P l -> P d -> P (last l d).
Proof.
  intros Hall Hd. induction Hall as [|a l Ha _ IH]; [exact Hd|].
  destruct l as [|b l]; [exact Ha|exact IH].
Qed.

Lemma last_progress_is_last_emitted (expected : Q) (samples : list sample) :
  forall last_progress,
    last_progress_after expected last_progress samples
    = last (emitted_fractions (monitor_loop expected last_progress samples)) last_progress.
Proof.
  induction samples as [|s rest IH]; intro last_progress; [reflexivity|].
  rewrite monitor_loop_cons, emitted_fractions_app.
  change (last_progress_after expected last_progress (s :: rest))
    with (last_progress_after expected (next_progress expected last_progress s) rest).
  rewrite IH.
  destruct (iteration_cases expected last_progress s)
    as [[Hnone Hsame]|(cache_dirs & _ & _ & Hone & _)].
  - rewrite Hnone, Hsame. reflexivity.
  - rewrite Hone. simpl app. symmetry. apply last_cons_default.
Qed.

Lemma last_progress_capped (expected : Q) (samples : list sample) :
  (last_progress_after expected 0 samples <= progress_cap)%Q.
Proof.
  rewrite (last_progress_is_last_emitted expected samples 0%Q).
  destruct (monitor_loop_increasing expected samples 0%Q) as [Hall _]. cbv zeta in Hall.
  apply (last_satisfies (fun p => (p <= progress_cap)%Q)); [|discriminate].
  eapply Forall_impl; [|exact Hall]. simpl. intros p [_ Hp]. exact Hp.
Qed.

(** X2. [last_progress] is at every moment the last fraction the sampler
    has printed (0 before the first one), and it stays between 0 and 0.95. *)
Theorem last_progress_tracks_output (model_name : string) (samples : list sample) :
  let expected := expected_size_bytes model_name in
  last_progress_after expected 0 samples
  = last (emitted_fractions (monitor_download_progress model_name samples)) 0%Q /\
  (0 <= last_progress_after expected 0 samples)%Q /\
  (last_progress_after expected 0 samples <= progress_cap)%Q.
Proof.
  intro expected.
  assert (E := last_progress_is_last_emitted expected samples 0%Q).
  split; [exact E|]. split; [apply last_progress_after_ge|].
  apply last_progress_capped.
Qed.

(** At or above the cap nothing more is printed. *)
Lemma monitor_loop_saturated (expected : Q) (samples : list sample) :
  forall last_progress,
    (progress_cap <= last_progress)%Q ->
    emitted_fractions (monitor_loop expected last_progress samples) = [].
Proof.
  induction samples as [|s rest IH]; intros last_progress Hcap; [reflexivity|].
  rewrite monitor_loop_cons, emitted_fractions_app.
  destruct (iteration_cases expected last_progress s)
    as [[Hnone Hsame]|(cache_dirs & _ & _ & _ & Hval & Hlt)].
  - rewrite Hnone, Hsame. apply IH. exact Hcap.
  - exfalso. rewrite Hval in Hlt.
    apply (Qlt_not_le _ _ Hlt). eapply Qle_trans; [apply Q.le_min_r|exact Hcap].
Qed.

Lemma total_reaches_expected_pos (expected : Q) (total_size : Z) :
  (0 < expected)%Q -> (expected <= inject_Z total_size)%Q -> 0 < total_size.
Proof.
  intros Hexp Htot. rewrite Zlt_Qlt. eapply Qlt_le_trans; eassumption.
Qed.

(** X3. Once a scan has found the expected size or more on disk, the
    sampler has printed its last fraction: [last_progress] is 0.95 and,
    whatever the later scans find, nothing more is printed. *)
Theorem monitor_silent_after_full_scan
        (model_name : string) (before : list sample)
        (cache_dirs : list cache_root) (rest : list sample) :
  (expected_size_bytes model_name <= inject_Z (sum_cache_dirs cache_dirs))%Q ->
  emitted_fractions
    (monitor_download_progress model_name (before ++ Scanned cache_dirs :: rest))
  = emitted_fractions
      (monitor_download_progress model_name (before ++ [Scanned cache_dirs])) /\
  (last_progress_after (expected_size_bytes model_name) 0 (before ++ [Scanned cache_dirs])
   == progress_cap)%Q.
Proof.
  intro Hfull. set (expected := expected_size_bytes model_name) in *.
  assert (Hexp : (0 < expected)%Q) by apply expected_size_bytes_pos.
  assert (Hpos := total_reaches_expected_pos _ _ Hexp Hfull).
  assert (Hlast : (last_progress_after expected 0 (before ++ [Scanned cache_dirs])
                   == progress_cap)%Q).
  { unfold last_progress_after. rewrite fold_left_app. simpl.
    fold (last_progress_after expected 0 before).
    unfold next_progress, monitor_iteration.
    apply Z.ltb_lt in Hpos. rewrite Hpos.
    rewrite (fraction_of_everything expected _ Hexp Hfull).
    destruct (Qltb (last_progress_after expected 0 before) progress_cap) eqn:E;
      [reflexivity|].
    simpl. apply Qltb_false in E.
    assert (Hle := last_progress_capped expected before).
    apply Qle_antisym; assumption. }
  split; [|exact Hlast].
  unfold monitor_download_progress. fold expected.
  change (before ++ Scanned cache_dirs :: rest)%list
    with (before ++ [Scanned cache_dirs] ++ rest)%list.
  rewrite app_assoc, monitor_loop_app, emitted_fractions_app.
  rewrite (monitor_loop_saturated expected rest); [apply app_nil_r|].
  apply Qle_lteq. right. symmetry. exact Hlast.
Qed.

Lemma monitor_silent_after_full_scan_witness :
  emitted_fractions
    (monitor_download_progress "dev"
       [one_file_scan 2254857830; one_file_scan 4509715661; one_file_scan 9000000000])
  = emitted_fractions
      (monitor_download_progress "dev"
         [one_file_scan 2254857830; one_file_scan 4509715661]).
Proof.
  refine (proj1 (monitor_silent_after_full_scan "dev" [one_file_scan 2254857830]
                   _ [one_file_scan 9000000000] _)).
  vm_compute. discriminate.
Defined.

Lemma fraction_monotone (expected : Q) (t1 t2 : Z) :
  (0 < expected)%Q -> t2 <= t1 ->
  (Qmin (inject_Z t2 / expected) progress_cap
   <= Qmin (inject_Z t1 / expected) progress_cap)%Q.
Proof.
  intros Hexp Hle. apply Q.min_le_compat_r.
  unfold Qdiv. apply Qmult_le_compat_r.
  - rewrite <- Zle_Qle. exact Hle.
  - apply Qlt_le_weak, Qinv_lt_0_compat. exact Hexp.
Qed.

(** After a scan that found something, [last_progress] is at least the
    fraction of that scan, and stays so. *)
Lemma last_progress_dominates (expected : Q) (before : list sample)
      (cache_dirs : list cache_root) (between : list sample) :
  0 < sum_cache_dirs cache_dirs ->
  (Qmin (inject_Z (sum_cache_dirs cache_dirs) / expected) progress_cap
   <= last_progress_after expected 0 (before ++ Scanned cache_dirs :: between))%Q.
Proof.
  intro Hpos. unfold last_progress_after. rewrite fold_left_app. simpl.
  fold (last_progress_after expected 0 before).
  eapply Qle_trans; [|apply last_progress_after_ge].
  unfold next_progress, monitor_iteration.
  apply Z.ltb_lt in Hpos. rewrite Hpos.
  destruct (Qltb (last_progress_after expected 0 before)
              (Qmin (inject_Z (sum_cache_dirs cache_dirs) / expected) progress_cap)) eqn:E.
  - apply Qle_refl.
  - apply Qltb_false in E. exact E.
Qed.

(** X4. A scan that finds no more bytes than some earlier scan did (files
    were removed, or nothing has arrived) prints nothing and leaves
    [last_progress] as it is: a regression on disk is never shown. *)
Theorem monitor_never_shows_regression
        (model_name : string) (before : list sample) (earlier : list cache_root)
        (between : list sample) (cache_dirs : list cache_root) :
  let expected := expected_size_bytes model_name in
  let last_progress :=
    last_progress_after expected 0 (before ++ Scanned earlier :: between) in
  sum_cache_dirs cache_dirs <= sum_cache_dirs earlier ->
  monitor_iteration expected last_progress (Scanned cache_dirs)
  = ([Sleep 2], last_progress).
Proof.
  intros expected last_progress Hle.
  unfold monitor_iteration.
  destruct (0 <? sum_cache_dirs cache_dirs) eqn:Epos; [|reflexivity].
  apply Z.ltb_lt in Epos.
  assert (Hexp : (0 < expected)%Q) by apply expected_size_bytes_pos.
  assert (Hearlier : 0 < sum_cache_dirs earlier) by lia.
  assert (E : Qltb last_progress
                (Qmin (inject_Z (sum_cache_dirs cache_dirs) / expected) progress_cap)
              = false).
  { apply Qltb_false.
    eapply Qle_trans; [apply (fraction_monotone expected _ _ Hexp Hle)|].
    apply last_progress_dominates. exact Hearlier. }
  rewrite E. reflexivity.
Qed.

Lemma monitor_never_shows_regression_witness :
  let last_progress :=
    last_progress_after (expected_size_bytes "dev") 0 [one_file_scan 2254857830] in
  monitor_iteration (expected_size_bytes "dev") last_progress (one_file_scan 1000000)
  = ([Sleep 2], last_progress).
Proof.
  unfold one_file_scan.
  apply (monitor_never_shows_regression "dev" [] _ [] _).
  vm_compute. discriminate.
Defined.

Lemma monitor_error_lines_app (l1 l2 : list event) :
  monitor_error_lines (l1 ++ l2)
  = (monitor_error_lines l1 ++ monitor_error_lines l2)%list.
Proof.
  unfold monitor_error_lines. rewrite stdout_app. apply filter_app.
Qed.

Lemma iteration_scanned (expected last_progress : Q) (cache_dirs : list cache_root) :
  let pass := monitor_iteration expected last_progress (Scanned cache_dirs) in
  monitor_error_lines (fst pass) = [] /\ (slept (fst pass) == 2)%Q.
Proof.
  unfold monitor_iteration.
  destruct (0 <? sum_cache_dirs cache_dirs); [|split; reflexivity].
  destruct (Qltb last_progress
              (Qmin (inject_Z (sum_cache_dirs cache_dirs) / expected) progress_cap));
    split; reflexivity.
Qed.

Lemma iteration_raised (expected last_progress : Q) (msg : string) :
  monitor_iteration expected last_progress (ScanRaised msg)
  = ([Print ("PROGRESS_MONITOR_ERROR: " ++ msg); Sleep 5], last_progress).
Proof. reflexivity. Qed.

(** X5. A scan that raises is a skipped sample: it is reported by one
    [PROGRESS_MONITOR_ERROR: <message>] line and changes nothing else, so
    the fractions printed are those of the run without the failed scans,
    and the error lines are the messages of the failed scans, in order. *)
Theorem scan_errors_are_skipped_samples (model_name : string) (samples : list sample) :
  emitted_fractions (monitor_download_progress model_name samples)
  = emitted_fractions (monitor_download_progress model_name (filter is_scanned samples)) /\
  monitor_error_lines (monitor_download_progress model_name samples)
  = map (fun msg => "PROGRESS_MONITOR_ERROR: " ++ msg) (scan_errors samples) /\
  last_progress_after (expected_size_bytes model_name) 0 samples
  = last_progress_after (expected_size_bytes model_name) 0 (filter is_scanned samples).
Proof.
  unfold monitor_download_progress.
  generalize (expected_size_bytes model_name) as expected.
  generalize 0%Q as last_progress. intros last_progress expected.
  revert last_progress.
  induction samples as [|s rest IH]; intro last_progress; [repeat split|].
  destruct s as [cache_dirs|msg].
  - cbn [filter is_scanned scan_errors].
    rewrite !monitor_loop_cons, !emitted_fractions_app, monitor_error_lines_app.
    destruct (iteration_scanned expected last_progress cache_dirs) as [Hnone _].
    cbv zeta in Hnone. rewrite Hnone.
    change (last_progress_after expected last_progress (Scanned cache_dirs :: rest))
      with (last_progress_after expected
              (next_progress expected last_progress (Scanned cache_dirs)) rest).
    change (last_progress_after expected last_progress
              (Scanned cache_dirs :: filter is_scanned rest))
      with (last_progress_after expected
              (next_progress expected last_progress (Scanned cache_dirs))
              (filter is_scanned rest)).
    destruct (IH (next_progress expected last_progress (Scanned cache_dirs)))
      as (He & Hm & Hl).
    rewrite He, Hm, Hl. repeat split.
  - cbn [filter is_scanned scan_errors map].
    rewrite monitor_loop_cons, emitted_fractions_app, monitor_error_lines_app.
    change (last_progress_after expected last_progress (ScanRaised msg :: rest))
      with (last_progress_after expected last_progress rest).
    change (next_progress expected last_progress (ScanRaised msg)) with last_progress.
    rewrite iteration_raised. cbn [fst].
    destruct (IH last_progress) as (He & Hm & Hl).
    rewrite He, Hm, Hl. repeat split.
Qed.

Lemma slept_app (l1 l2 : list event) : (slept (l1 ++ l2) == slept l1 + slept l2)%Q.
Proof.
  induction l1 as [|e l1 IH]; simpl; [ring|].
  destruct e; rewrite ?IH; ring.
Qed.

(** X6. Every pass of the sampler ends with one sleep, of 2 seconds after a
    scan and of 5 seconds after a scan that raised: over any run the time
    slept is 2 seconds per scan plus 5 seconds per failed scan. *)
Theorem monitor_sleeps_once_per_pass (model_name : string) (samples : list sample) :
  (slept (monitor_download_progress model_name samples)
   == 2 * inject_Z (Z.of_nat (List.length (filter is_scanned samples)))
      + 5 * inject_Z (Z.of_nat (List.length (scan_errors samples))))%Q.
Proof.
  unfold monitor_download_progress.
  generalize (expected_size_bytes model_name) as expected.
  generalize 0%Q as last_progress. intros last_progress expected.
  revert last_progress.
  induction samples as [|s rest IH]; intro last_progress; [reflexivity|].
  rewrite monitor_loop_cons, slept_app, IH.
  destruct s as [cache_dirs|msg].
  - destruct (iteration_scanned expected last_progress cache_dirs) as [_ Hslept].
    cbv zeta in Hslept. rewrite Hslept.
    cbn [filter is_scanned scan_errors List.length].
    rewrite Nat2Z.inj_succ. unfold Z.succ. rewrite inject_Z_plus.
    change (inject_Z 1) with 1%Q. ring.
  - rewrite iteration_raised.
    cbn [filter is_scanned scan_errors List.length fst slept].
    rewrite Nat2Z.inj_succ. unfold Z.succ. rewrite inject_Z_plus.
    change (inject_Z 1) with 1%Q. ring.
Qed.

(** ** The two decimals of a progress line *)

(** [round_half_even] gives a nearest integer, and at a tie the even one. *)
Lemma round_half_even_spec (n : Z) (d : positive) :
  let z := round_half_even (n # d) in
  (2 * z - 1) * Zpos d <= 2 * n <= (2 * z + 1) * Zpos d /\
  (2 * n = (2 * z + 1) * Zpos d -> Z.even z = true) /\
  (2 * n = (2 * z - 1) * Zpos d -> Z.even z = true).
Proof.
  unfold round_half_even. cbn [Qnum Qden].
  assert (Hd : 0 < Zpos d) by apply Pos2Z.is_pos.
  pose proof (Z.div_mod n (Zpos d) ltac:(lia)) as Hdm.
  pose proof (Z.mod_pos_bound n (Zpos d) Hd) as Hr.
  set (q := n / Zpos d) in *. set (r := n mod Zpos d) in *.
  destruct (Z.compare_spec (2 * r) (Zpos d)) as [He|Hl|Hg]; cbv zeta.
  - destruct (Z.even q) eqn:Eq.
    + repeat split; try lia. intros _. exact Eq.
    + assert (Ez : Z.even (q + 1) = true).
      { replace (q + 1) with (Z.succ q) by lia. rewrite Z.even_succ.
        rewrite <- Z.negb_even, Eq. reflexivity. }
      repeat split; try lia; intros _; exact Ez.
  - repeat split; lia.
  - repeat split; lia.
Qed.

Lemma round_half_even_monotone (x y : Q) :
  (x <= y)%Q -> round_half_even x <= round_half_even y.
Proof.
  destruct x as [n1 d1], y as [n2 d2]. unfold Qle. cbn [Qnum Qden]. intro Hle.
  destruct (round_half_even_spec n1 d1) as ([Hlo1 _] & _ & Hlow1).
  destruct (round_half_even_spec n2 d2) as ([_ Hhi2] & Hup2 & _).
  cbv zeta in *.
  set (zx := round_half_even (n1 # d1)) in *.
  set (zy := round_half_even (n2 # d2)) in *.
  assert (H1 : 0 < Zpos d1) by apply Pos2Z.is_pos.
  assert (H2 : 0 < Zpos d2) by apply Pos2Z.is_pos.
  destruct (Z.le_gt_cases zx zy) as [Hok|Hgt]; [exact Hok|exfalso].
  assert (HA : (2 * zx - 1) * Zpos d1 * Zpos d2 <= 2 * n1 * Zpos d2)
    by (apply Z.mul_le_mono_nonneg_r; lia).
  assert (HB : 2 * n2 * Zpos d1 <= (2 * zy + 1) * Zpos d2 * Zpos d1)
    by (apply Z.mul_le_mono_nonneg_r; lia).
  assert (HP : 0 < Zpos d1 * Zpos d2) by lia.
  assert (HC : (2 * zx - 1) * (Zpos d1 * Zpos d2) <= (2 * zy + 1) * (Zpos d1 * Zpos d2))
    by lia.
  apply Z.mul_le_mono_pos_r in HC; [|exact HP].
  assert (Hz : zx = zy + 1) by lia.
  assert (E1 : 2 * n1 * Zpos d2 = (2 * zx - 1) * Zpos d1 * Zpos d2).
  { rewrite Hz in *. replace (2 * (zy + 1) - 1) with (2 * zy + 1) in * by lia. lia. }
  assert (E2 : 2 * n2 * Zpos d1 = (2 * zy + 1) * Zpos d2 * Zpos d1).
  { rewrite Hz in *. replace (2 * (zy + 1) - 1) with (2 * zy + 1) in * by lia. lia. }
  apply Z.mul_reg_r in E1; [|lia]. apply Z.mul_reg_r in E2; [|lia].
  specialize (Hlow1 E1). specialize (Hup2 E2).
  rewrite Hz in Hlow1. replace (zy + 1) with (Z.succ zy) in Hlow1 by lia.
  rewrite Z.even_succ, <- Z.negb_even, Hup2 in Hlow1. discriminate Hlow1.
Qed.

Lemma round_half_even_close (x : Q) :
  (x - (1 # 2) <= inject_Z (round_half_even x) <= x + (1 # 2))%Q.
Proof.
  destruct x as [n d].
  destruct (round_half_even_spec n d) as ([Hlo Hhi] & _). cbv zeta in *.
  set (z := round_half_even (n # d)) in *.
  unfold Qle, Qminus, Qplus, Qopp, inject_Z. cbn [Qnum Qden].
  rewrite !Pos2Z.inj_mul. split; lia.
Qed.

Lemma hundredths_read_back (hundredths : Z) :
  0 <= hundredths < 100 ->
  progress_value ("PROGRESS: " ++ hundredths_text hundredths) = Some (hundredths # 100).
Proof.
  intro Hrange.
  assert (Hall : forallb reads_back (seq 0 100) = true) by (vm_compute; reflexivity).
  rewrite forallb_forall in Hall.
  specialize (Hall (Z.to_nat hundredths)).
  assert (Hin : In (Z.to_nat hundredths) (seq 0 100)) by (apply in_seq; lia).
  specialize (Hall Hin). unfold reads_back in Hall.
  rewrite Z2Nat.id in Hall by lia.
  destruct (progress_value ("PROGRESS: " ++ hundredths_text hundredths)) as [[num den]|];
    [|discriminate Hall].
  apply andb_prop in Hall. destruct Hall as [Hn Hd].
  apply Z.eqb_eq in Hn. apply Pos.eqb_eq in Hd. subst. reflexivity.
Qed.

Lemma format_2f_nonneg (x : Q) :
  (0 <= x)%Q -> format_2f x = hundredths_text (round_half_even (Qabs x * 100)).
Proof.
  intro Hx. unfold format_2f, hundredths_text.
  apply Qltb_false in Hx. rewrite Hx. reflexivity.
Qed.

Lemma hundredths_in_range (x : Q) :
  (0 <= x)%Q -> (x <= progress_cap)%Q ->
  0 <= round_half_even (Qabs x * 100) <= 95.
Proof.
  intros Hlo Hhi.
  assert (Habs : (Qabs x == x)%Q) by (apply Qabs_pos; exact Hlo).
  split.
  - change 0 with (round_half_even 0). apply round_half_even_monotone.
    rewrite Habs. apply Qmult_le_0_compat; [exact Hlo|discriminate].
  - change 95 with (round_half_even 95). apply round_half_even_monotone.
    rewrite Habs. unfold progress_cap in Hhi. lra.
Qed.

Lemma progress_line_value (progress : Q) :
  (0 <= progress)%Q -> (progress <= progress_cap)%Q ->
  progress_value (progress_line progress) = Some (two_decimals progress).
Proof.
  intros Hlo Hhi.
  destruct (hundredths_in_range progress Hlo Hhi) as [H0 H95].
  unfold progress_line. rewrite (format_2f_nonneg progress Hlo).
  apply hundredths_read_back. lia.
Qed.

(** X7. A progress line of the sampler, read back as a consumer reads it
    ([PROGRESS: ] followed by a decimal numeral), gives the fraction rounded
    to two decimals, which is within 0.005 of the fraction. *)
Theorem progress_line_reads_back (progress : Q) :
  (0 <= progress)%Q -> (progress <= progress_cap)%Q ->
  progress_value (progress_line progress) = Some (two_decimals progress) /\
  (progress - (1 # 200) <= two_decimals progress <= progress + (1 # 200))%Q.
Proof.
  intros Hlo Hhi.
  split; [apply progress_line_value; assumption|].
  unfold two_decimals.
  assert (Habs : (Qabs progress == progress)%Q) by (apply Qabs_pos; exact Hlo).
  destruct (round_half_even_close (Qabs progress * 100)) as [Hc1 Hc2].
  rewrite (Qmake_Qdiv (round_half_even (Qabs progress * 100)) 100).
  change (inject_Z (Zpos 100)) with 100%Q.
  set (h := inject_Z (round_half_even (Qabs progress * 100))) in *.
  clearbody h. rewrite Habs in Hc1, Hc2. unfold Qdiv.
  setoid_replace (/ 100)%Q with (1 # 100)%Q by reflexivity.
  split; lra.
Qed.

Lemma progress_line_reads_back_witness :
  progress_value (progress_line 0.4999%Q) = Some (50 # 100).
Proof.
  refine (proj1 (progress_line_reads_back 0.4999%Q _ _)); discriminate.
Defined.

Lemma two_decimals_monotone (p q : Q) :
  (0 <= p)%Q -> (p <= q)%Q -> Qle_bool (two_decimals p) (two_decimals q) = true.
Proof.
  intros Hp Hpq. apply Qle_bool_iff. unfold two_decimals, Qle. cbn [Qnum Qden].
  assert (Hq : (0 <= q)%Q) by (eapply Qle_trans; eassumption).
  assert (H : round_half_even (Qabs p * 100) <= round_half_even (Qabs q * 100)).
  { apply round_half_even_monotone.
    rewrite (Qabs_pos p Hp), (Qabs_pos q Hq).
    apply Qmult_le_compat_r; [exact Hpq|discriminate]. }
  lia.
Qed.

(** What a consumer reads from the sampler's lines: the printed fractions,
    each rounded to two decimals. *)
Lemma monitor_loop_reads_back (expected : Q) (samples : list sample) :
  forall last_progress,
    (0 <= last_progress)%Q ->
    progress_values (stdout (monitor_loop expected last_progress samples))
    = map two_decimals (emitted_fractions (monitor_loop expected last_progress samples)).
Proof.
  induction samples as [|s rest IH]; intros last_progress Hlast; [reflexivity|].
  rewrite monitor_loop_cons.
  assert (Hnext : (0 <= next_progress expected last_progress s)%Q).
  { destruct (iteration_cases expected last_progress s)
      as [[_ Hsame]|(_ & _ & _ & _ & _ & Hlt)].
    - rewrite Hsame. exact Hlast.
    - eapply Qle_trans; [exact Hlast|]. apply Qlt_le_weak. exact Hlt. }
  specialize (IH _ Hnext). revert IH.
  generalize (monitor_loop expected (next_progress expected last_progress s) rest).
  intros tail IH.
  destruct s as [cache_dirs|msg].
  - unfold monitor_iteration.
    destruct (0 <? sum_cache_dirs cache_dirs); [|exact IH].
    destruct (Qltb last_progress
                (Qmin (inject_Z (sum_cache_dirs cache_dirs) / expected) progress_cap))
      eqn:E; [|exact IH].
    apply Qltb_true in E.
    cbn [fst app stdout stdout_line emitted_fractions map progress_values].
    rewrite (progress_line_value
               (Qmin (inject_Z (sum_cache_dirs cache_dirs) / expected) progress_cap)).
    + rewrite IH. reflexivity.
    + eapply Qle_trans; [exact Hlast|]. apply Qlt_le_weak. exact E.
    + apply Q.le_min_r.
  - rewrite iteration_raised. exact IH.
Qed.

Lemma nondecreasingb_map_sorted (l : list Q) :
  Forall (fun p => (0 <= p)%Q) l -> StronglySorted Qlt l ->
  nondecreasingb (map two_decimals l) = true.
Proof.
  intros Hpos Hsorted.
  induction Hsorted as [|p l Hrest IH Hhead]; [reflexivity|].
  inversion Hpos as [|? ? Hp Hl]; subst.
  destruct l as [|q l]; [reflexivity|].
  cbn [map nondecreasingb] in *. rewrite (IH Hl), andb_true_r.
  apply two_decimals_monotone; [exact Hp|].
  inversion Hhead as [|? ? Hpq _]; subst. apply Qlt_le_weak. exact Hpq.
Qed.

(** X8. The fractions a consumer reads from the sampler's own lines are the
    printed fractions rounded to two decimals, and they never decrease: the
    text of the sampler's progress lines can repeat but cannot go back. *)
Theorem monitor_text_never_decreases (model_name : string) (samples : list sample) :
  let log := monitor_download_progress model_name samples in
  progress_values (stdout log) = map two_decimals (emitted_fractions log) /\
  nondecreasingb (progress_values (stdout log)) = true.
Proof.
  intro log. unfold log, monitor_download_progress.
  assert (Hread := monitor_loop_reads_back (expected_size_bytes model_name) samples 0%Q
                     (Qle_refl 0)).
  split; [exact Hread|]. rewrite Hread.
  destruct (monitor_loop_increasing (expected_size_bytes model_name) samples 0%Q)
    as [Hall Hsorted].
  cbv zeta in Hall, Hsorted.
  apply nondecreasingb_map_sorted; [|exact Hsorted].
  eapply Forall_impl; [|exact Hall]. simpl. intros p [Hp _].
  apply Qlt_le_weak. exact Hp.
Qed.

(** ** What the supervisor does to the download process *)

Lemma existsb_sleeps (f : event -> bool) (seconds : Q) (n : nat) :
  f (Sleep seconds) = false -> existsb f (repeat (Sleep seconds) n) = false.
Proof.
  intro Hf. induction n as [|n IH]; [reflexivity|]. simpl. rewrite Hf, IH. reflexivity.
Qed.

(** X9. The download process is spawned at most once, and only as the last
    step of the start-up: after the cache directory has been created, the
    sampler thread started and the [Command:] line printed with the very
    arguments that are passed to [Popen]; the model is then one that
    resolves. *)
Theorem spawn_is_last_startup_step (w : world) (fuel : nat) (model_name : string) :
  let log := fst (download_model_robust w fuel model_name) in
  spawned log = true ->
  exists huggingface_model rest,
    dict_get model_mapping model_name = Some huggingface_model /\
    log = (startup_log w model_name huggingface_model ++ rest)%list /\
    spawned rest = false /\
    monitor_started rest = false.
Proof.
  intro log. unfold log. clear log.
  destruct (download_model_robust_shape w fuel model_name) as
    [msg Hmk|Hmk Hmap|hm msg Hmk Hmap Hth|hm msg Hmk Hmap Hth Hpo
     |hm Hsp Hmap Hwait|hm k Hsp Hmap Hwait Hk Hp Hc|hm k Hsp Hmap Hwait Hk Hp
     |hm k rc msg Hsp Hmap Hwait Hk Hp Hrc Hcomm|hm k rc out err Hsp Hmap Hwait Hk Hp Hrc Hcomm];
    cbn [fst]; intro Hspawned;
    try (exfalso; revert Hspawned; unfold spawned, startup_log; cbn [firstn app existsb];
         discriminate).
  - exists hm, (repeat (Sleep 5) fuel). repeat split; try assumption;
      apply existsb_sleeps; reflexivity.
  - exists hm, (repeat (Sleep 5) k ++ [Print timed_out_line; Terminate])%list.
    repeat split; try assumption; unfold spawned, monitor_started;
      rewrite existsb_app, existsb_sleeps; reflexivity.
  - exists hm, (repeat (Sleep 5) k
                ++ [Print "PROGRESS: 1.0"; Print "DOWNLOAD_COMPLETE"])%list.
    repeat split; try assumption; unfold spawned, monitor_started;
      rewrite existsb_app, existsb_sleeps; reflexivity.
  - exists hm, (repeat (Sleep 5) k ++ [caught msg])%list.
    repeat split; try assumption; unfold spawned, monitor_started;
      rewrite existsb_app, existsb_sleeps; reflexivity.
  - exists hm, (repeat (Sleep 5) k ++ failure_report rc out err)%list.
    repeat split; try assumption; unfold spawned, monitor_started;
      rewrite existsb_app, existsb_sleeps; reflexivity.
Qed.

Lemma spawn_is_last_startup_step_witness :
  exists rest,
    fst (download_model_robust (exiting_world 0) 2 "dev")
    = (startup_log (exiting_world 0) "dev" "black-forest-labs/FLUX.1-dev" ++ rest)%list /\
    spawned rest = false.
Proof.
  destruct (spawn_is_last_startup_step (exiting_world 0) 2 "dev" eq_refl)
    as (hm & rest & Hmap & Hlog & Hspawned & _).
  exists rest. split; [|exact Hspawned].
  assert (E : hm = "black-forest-labs/FLUX.1-dev") by (inversion Hmap; reflexivity).
  rewrite <- E. exact Hlog.
Defined.

(** X10. [terminate()] is called only when a test of the loop has found the
    process alive past the ceiling, and [communicate()] only after a nonzero
    exit: a process that is found gone is never signalled, however late it
    is found, and a successful run does neither. *)
Theorem process_signalled_only_past_ceiling (w : world) (fuel : nat) (model_name : string) :
  let r := download_model_robust w fuel model_name in
  (terminated (fst r) = true ->
   snd r = Done false /\
   terminal_tokens (fst r) = [timed_out_line] /\
   exists k, (k < fuel)%nat /\ waits_until w k /\
             poll w k = None /\ ceiling_exceeded w k = true) /\
  (communicated (fst r) = true ->
   snd r = Done false /\
   exists k returncode, (k < fuel)%nat /\ waits_until w k /\
                        poll w k = Some returncode /\ returncode <> 0) /\
  (snd r = Done true -> terminated (fst r) = false /\ communicated (fst r) = false).
Proof.
  intro r. unfold r. clear r.
  destruct (download_model_robust_shape w fuel model_name) as
    [msg Hmk|Hmk Hmap|hm msg Hmk Hmap Hth|hm msg Hmk Hmap Hth Hpo
     |hm Hsp Hmap Hwait|hm k Hsp Hmap Hwait Hk Hp Hc|hm k Hsp Hmap Hwait Hk Hp
     |hm k rc msg Hsp Hmap Hwait Hk Hp Hrc Hcomm|hm k rc out err Hsp Hmap Hwait Hk Hp Hrc Hcomm];
    cbn [fst snd]; unfold terminated, communicated;
    rewrite ?existsb_app, ?existsb_sleeps by reflexivity;
    cbn [startup_log firstn app existsb orb].
  - split; [|split]; intro H; discriminate H.
  - split; [|split]; intro H; discriminate H.
  - split; [|split]; intro H; discriminate H.
  - split; [|split]; intro H; discriminate H.
  - split; [|split]; intro H; discriminate H.
  - split; [|split]; intro H; try discriminate H.
    split; [reflexivity|]. split.
    + unfold terminal_tokens. cbn [stdout stdout_line].
      rewrite stdout_app, stdout_sleeps. reflexivity.
    + exists k. split; [assumption|]. split; [assumption|]. split; assumption.
  - split; [|split]; intro H; try discriminate H. split; reflexivity.
  - split; [|split]; intro H; discriminate H.
  - split; [|split]; intro H; try discriminate H.
    split; [reflexivity|]. exists k, rc.
    split; [assumption|]. split; [assumption|]. split; assumption.
Qed.

Lemma process_signalled_only_past_ceiling_witness :
  terminated (fst (download_model_robust (exiting_world 0) 2 "dev")) = false /\
  communicated (fst (download_model_robust (exiting_world 0) 2 "dev")) = false.
Proof.
  destruct (process_signalled_only_past_ceiling (exiting_world 0) 2 "dev")
    as (_ & _ & Hsuccess).
  apply Hsuccess. vm_compute. reflexivity.
Defined.

(** X11. The sampler thread is started only for a model that resolves, and
    the two tables have the same keys: whenever the sampler runs, the model
    has its own entry in the size table, so the 2.1 GB default of
    [get_model_size_gb] is never what a running sampler scales by. *)
Theorem sampler_never_uses_default_size (w : world) (fuel : nat) (model_name : string) :
  monitor_started (fst (download_model_robust w fuel model_name)) = true ->
  map fst model_sizes = map fst model_mapping /\
  dict_get model_sizes model_name = Some (get_model_size_gb model_name) /\
  ~ (get_model_size_gb model_name == 2.1)%Q.
Proof.
  intro Hstarted.
  assert (Hknown : model_name = "schnell" \/ model_name = "dev").
  { destruct (model_mapping_cases model_name) as [(_ & _ & Hmap)|[[E _]|[E _]]];
      [|now left|now right].
    exfalso. revert Hstarted. unfold download_model_robust. rewrite Hmap.
    destruct (mkdir_raises w); discriminate. }
  split; [reflexivity|].
  destruct Hknown as [E|E]; subst model_name; split; try reflexivity; discriminate.
Qed.

Lemma sampler_never_uses_default_size_witness :
  dict_get model_sizes "dev" = Some (get_model_size_gb "dev").
Proof.
  refine (proj1 (proj2 (sampler_never_uses_default_size (exiting_world 0) 2 "dev" _))).
  vm_compute. reflexivity.
Defined.

Lemma error_token_is_not_complete (reason : string) :
  ["DOWNLOAD_ERROR: " ++ reason] <> ["DOWNLOAD_COMPLETE"].
Proof. simpl. intro H. inversion H. Qed.

(** X12. The exit status of [main] agrees with the terminal token: status 0
    exactly when the one terminal token printed is [DOWNLOAD_COMPLETE],
    status 1 after a run that printed one [DOWNLOAD_ERROR] token; and a
    usage error exits with status 1 without printing any terminal token. *)
Theorem exit_status_agrees_with_token (w : world) (fuel : nat) (argv : list string) :
  (List.length argv <> 2%nat ->
   snd (main w fuel argv) = Done 1 /\ terminal_tokens (fst (main w fuel argv)) = []) /\
  (List.length argv = 2%nat ->
   (snd (main w fuel argv) = Done 0 <->
    terminal_tokens (fst (main w fuel argv)) = ["DOWNLOAD_COMPLETE"]) /\
   (snd (main w fuel argv) = Done 1 <->
    exists reason, terminal_tokens (fst (main w fuel argv)) = ["DOWNLOAD_ERROR: " ++ reason])).
Proof.
  split.
  - intro Hlen. unfold main. apply Nat.eqb_neq in Hlen. rewrite Hlen. split; reflexivity.
  - intro Hlen. unfold main. apply Nat.eqb_eq in Hlen. rewrite Hlen. cbn [negb].
    generalize (nth 1 argv ""). intro model_name.
    assert (Hterm := shape_terminal w fuel model_name _
                       (download_model_robust_shape w fuel model_name)).
    destruct (download_model_robust w fuel model_name) as [log r]. cbn [fst snd] in Hterm.
    destruct Hterm as [(Hr & Htok & _)|[(Hr & Htok)|(Hr & reason & Htok)]]; subst r.
    + cbn [bind fst snd]. rewrite Htok. split; split; intro H; try discriminate H.
      destruct H as [reason H]. discriminate H.
    + rewrite bind_done. cbn [negb ret fst snd]. rewrite app_nil_r, Htok.
      split; split; intro H; try reflexivity; try discriminate H.
      destruct H as [reason H]. symmetry in H.
      exfalso. apply (error_token_is_not_complete reason H).
    + rewrite bind_done. cbn [negb ret fst snd]. rewrite app_nil_r, Htok.
      split; split; intro H; try reflexivity; try discriminate H;
        try (exfalso; apply (error_token_is_not_complete reason H)).
      exists reason. reflexivity.
Qed.

Lemma exit_status_agrees_with_token_witness :
  snd (main hanging_world 10 []) = Done 1 /\
  terminal_tokens (fst (main hanging_world 10 [])) = [] /\
  (snd (main (exiting_world 0) 2 ["robust_download.py"; "dev"]) = Done 0 <->
   terminal_tokens (fst (main (exiting_world 0) 2 ["robust_download.py"; "dev"]))
   = ["DOWNLOAD_COMPLETE"]).
Proof.
  destruct (exit_status_agrees_with_token hanging_world 10 []) as [Husage _].
  destruct (exit_status_agrees_with_token (exiting_world 0) 2 ["robust_download.py"; "dev"])
    as [_ Hrun].
  assert (H0 : List.length (@nil string) <> 2%nat) by discriminate.
  destruct (Husage H0) as [Hexit Htokens].
  destruct (Hrun eq_refl) as [Hiff _].
  split; [exact Hexit|]. split; [exact Htokens|exact Hiff].
Defined.

(** X13. The sampler is started before the download process is spawned: when
    [Popen] raises (the command-line tool is missing, say) the run ends with
    [False] and nothing spawned, but the sampler thread has been started,
    and nothing stops it before the interpreter exits. *)
Theorem spawn_failure_leaves_sampler_running
        (w : world) (fuel : nat) (model_name msg : string) :
  mkdir_raises w = None -> thread_start_raises w = None ->
  popen_raises w = Some msg ->
  model_name = "schnell" \/ model_name = "dev" ->
  let r := download_model_robust w fuel model_name in
  snd r = Done false /\
  monitor_started (fst r) = true /\
  spawned (fst r) = false /\
  final_lines 1 (fst r) = ["DOWNLOAD_ERROR: " ++ msg].
Proof.
  intros Hmk Hth Hpo Hknown r. unfold r. clear r.
  destruct (known_model_resolves model_name Hknown) as [hm Hmap].
  unfold download_model_robust, run_download.
  rewrite Hmk, Hmap, (model_mapping_nonempty _ _ Hmap), Hth, Hpo.
  repeat split.
Qed.

Lemma spawn_failure_leaves_sampler_running_witness :
  monitor_started (fst (download_model_robust no_cli_world 10 "dev")) = true /\
  spawned (fst (download_model_robust no_cli_world 10 "dev")) = false.
Proof.
  destruct (spawn_failure_leaves_sampler_running no_cli_world 10 "dev"
              "[Errno 2] No such file or directory: 'huggingface-cli'"
              eq_refl eq_refl eq_refl (or_intror eq_refl))
    as (_ & Hstarted & Hspawned & _).
  split; assumption.
Defined.

(** * Properties of the wrapper *)

Section WrapperFacts.

Import Wrapper.

Variable image : Type.
Variable lib : library image.

Lemma available_model_cases (model_name : string) :
  (dict_get available_models model_name = None /\
   ~ In model_name (map fst available_models)) \/
  (exists full_name,
      dict_get available_models model_name = Some full_name /\
      In model_name (map fst available_models)).
Proof.
  unfold available_models, dict_get.
  destruct (String.eqb "schnell" model_name) eqn:Es.
  - apply String.eqb_eq in Es. right. eexists. split; [reflexivity|]. left. exact Es.
  - destruct (String.eqb "dev" model_name) eqn:Ed.
    + apply String.eqb_eq in Ed. right. eexists. split; [reflexivity|].
      right. left. exact Ed.
    + apply String.eqb_neq in Es, Ed. left. split; [reflexivity|].
      simpl. intros [H|[H|[]]]; [apply Es|apply Ed]; exact H.
Qed.

(** X14. [load_model] refuses without any effect: when the library is not
    available, or the name is not one of the table, it logs one line,
    returns [False], never calls [Flux1.from_name], and leaves the wrapper
    (a model loaded before included) exactly as it was. *)
Theorem load_model_refusal_has_no_effect
        (self : MFLUXWrapper) (model_name : string) (quantize : option Z) :
  MFLUX_AVAILABLE lib = false \/ ~ In model_name (map fst available_models) ->
  snd (load_model lib self model_name quantize) = false /\
  snd (fst (load_model lib self model_name quantize)) = self /\
  existsb is_from_name (fst (fst (load_model lib self model_name quantize))) = false /\
  List.length (fst (fst (load_model lib self model_name quantize))) = 1%nat.
Proof.
  intro Hrefused. unfold load_model.
  destruct (MFLUX_AVAILABLE lib); [|repeat split].
  destruct Hrefused as [H|Hunknown]; [discriminate H|].
  destruct (available_model_cases model_name) as [[Hnone _]|(full & _ & Hin)];
    [|contradiction].
  cbn [negb]. rewrite Hnone. repeat split.
Qed.

(** X15. For a name of the table, with the library available, [load_model]
    calls [Flux1.from_name] exactly once, with the name and the quantization
    it was given.  If the call returns, the wrapper holds the new object and
    the name, and the result is [True]; if it raises, the result is [False]
    and both attributes are reset to [None], so that a model loaded before
    is lost as well. *)
Theorem load_model_loads_or_resets
        (self : MFLUXWrapper) (model_name : string) (quantize : option Z) :
  MFLUX_AVAILABLE lib = true -> In model_name (map fst available_models) ->
  let r := load_model lib self model_name quantize in
  filter is_from_name (fst (fst r)) = [FromName model_name quantize] /\
  match from_name lib model_name quantize with
  | None =>
      snd r = true /\
      snd (fst r) = {| flux_model := Some (Flux1 model_name quantize);
                       current_model := Some model_name |}
  | Some e =>
      snd r = false /\
      snd (fst r) = {| flux_model := None; current_model := None |} /\
      last (fst (fst r)) Randint
      = Log ("❌ Failed to load model '" ++ model_name ++ "': " ++ e)
  end.
Proof.
  intros Havailable Hknown r. unfold r, load_model. clear r.
  rewrite Havailable. cbn [negb].
  destruct (available_model_cases model_name) as [[_ Hnot]|(full & Hsome & _)];
    [contradiction|].
  rewrite Hsome.
  destruct (from_name lib model_name quantize) as [e|];
    destruct (truthy quantize); cbn [fst snd]; repeat split.
Qed.

Lemma load_model_consistent (self : MFLUXWrapper) (model_name : string)
      (quantize : option Z) :
  consistent self -> consistent (snd (fst (load_model lib self model_name quantize))).
Proof.
  intro Hself. unfold load_model.
  destruct (MFLUX_AVAILABLE lib); [|exact Hself]. cbn [negb].
  destruct (available_model_cases model_name) as [[Hnone _]|(full & Hsome & Hin)].
  - rewrite Hnone. exact Hself.
  - rewrite Hsome. destruct (from_name lib model_name quantize); cbn [fst snd].
    + exact I.
    + split; [reflexivity|exact Hin].
Qed.

(** The state and the events of [generate_image] once the model is in
    place: the state is the one the loading step left. *)
Lemma generate_image_state
      (self : MFLUXWrapper) (prompt model : string) (steps : Z) (guidance_scale : Q)
      (seed : option Z) (width height : Z) (negative_prompt : string) :
  snd (fst (generate_image lib self prompt model steps guidance_scale seed
              width height negative_prompt))
  = if negb (MFLUX_AVAILABLE lib) then self
    else if other_model self model
         then snd (fst (load_model lib self model (Some 8)))
         else self.
Proof.
  unfold generate_image.
  destruct (MFLUX_AVAILABLE lib); [|reflexivity]. cbn [negb].
  destruct (other_model self model).
  - destruct (load_model lib self model (Some 8)) as [[loading self1] loaded].
    destruct loaded; [|reflexivity]. cbn [negb fst snd].
    destruct seed; destruct (flux_model self1) as [model_object|]; try reflexivity;
      match goal with
      | |- context [flux_generate lib ?o ?s ?p ?c] =>
          destruct (flux_generate lib o s p c); reflexivity
      end.
  - cbn [negb].
    destruct seed; destruct (flux_model self) as [model_object|]; try reflexivity;
      match goal with
      | |- context [flux_generate lib ?o ?s ?p ?c] =>
          destruct (flux_generate lib o s p c); reflexivity
      end.
Qed.

(** X16. A wrapper is always in one of two states: no model at all
    ([current_model] and [flux_model] both [None]), or a model of the table
    together with the object that was made for that very name.  [__init__]
    leaves it so, and [load_model] and [generate_image] keep it so, whether
    they succeed, refuse or fail. *)
Theorem wrapper_stays_consistent
        (self : MFLUXWrapper) (model_name : string) (quantize : option Z)
        (prompt model : string) (steps : Z) (guidance_scale : Q)
        (seed : option Z) (width height : Z) (negative_prompt : string) :
  consistent (snd (init lib)) /\
  (consistent self ->
   consistent (snd (fst (load_model lib self model_name quantize))) /\
   consistent (snd (fst (generate_image lib self prompt model steps guidance_scale seed
                           width height negative_prompt)))).
Proof.
  split; [exact I|]. intro Hself.
  split; [apply load_model_consistent; exact Hself|].
  rewrite generate_image_state.
  destruct (negb (MFLUX_AVAILABLE lib)); [exact Hself|].
  destruct (other_model self model); [|exact Hself].
  apply load_model_consistent. exact Hself.
Qed.

Lemma load_model_result (self self1 : MFLUXWrapper) (model_name : string)
      (quantize : option Z) (loading : list event) (loaded : bool) :
  load_model lib self model_name quantize = (loading, self1, loaded) ->
  existsb is_generate loading = false /\
  printed loading = [] /\
  (loaded = true ->
   self1 = {| flux_model := Some (Flux1 model_name quantize);
              current_model := Some model_name |}) /\
  (loaded = false ->
   self1 = self \/ self1 = {| flux_model := None; current_model := None |}).
Proof.
  unfold load_model.
  destruct (MFLUX_AVAILABLE lib); cbn [negb].
  - destruct (dict_get available_models model_name).
    + destruct (from_name lib model_name quantize); destruct (truthy quantize);
        intro H; inversion H; subst; repeat split; intro; try discriminate; auto.
    + intro H; inversion H; subst. repeat split; intro; try discriminate; auto.
  - intro H; inversion H; subst. repeat split; intro; try discriminate; auto.
Qed.

Lemma other_model_false (self : MFLUXWrapper) (model : string) :
  other_model self model = false <-> current_model self = Some model.
Proof.
  unfold other_model. destruct (current_model self) as [current|].
  - destruct (String.eqb current model) eqn:E; cbn [negb].
    + apply String.eqb_eq in E. subst. split; reflexivity.
    + apply String.eqb_neq in E. split; [discriminate|]. intro H. inversion H. contradiction.
  - split; discriminate.
Qed.

Ltac generate_cases self model seed :=
  unfold generate_image;
  destruct (MFLUX_AVAILABLE lib) eqn:Havailable; cbn [negb];
  [ destruct (other_model self model) eqn:Hother;
    [ let loading := fresh "loading" in
      let self1 := fresh "self1" in
      let loaded := fresh "loaded" in
      destruct (load_model lib self model (Some 8)) as [[loading self1] loaded] eqn:Hload;
      destruct loaded; cbn [negb];
      [ destruct seed as [given|];
        (destruct (flux_model self1) as [model_object|] eqn:Hobject;
         [ match goal with
           | |- context [flux_generate lib ?o ?s ?p ?c] =>
               destruct (flux_generate lib o s p c) as [raised_msg|made_image] eqn:Hgenerate
           end
         | ])
      | ]
    | destruct seed as [given|];
      (destruct (flux_model self) as [model_object|] eqn:Hobject;
       [ match goal with
         | |- context [flux_generate lib ?o ?s ?p ?c] =>
             destruct (flux_generate lib o s p c) as [raised_msg|made_image] eqn:Hgenerate
         end
       | ]) ]
  | ];
  cbn [fst snd].

(** X17. [generate_image] does not load again a model that is already the
    current one: on a consistent wrapper whose [current_model] is the model
    asked for, [Flux1.from_name] is not called, the wrapper is left as it
    was, and the one generation call is made on the object already held,
    with the given seed (or the random one when none is given). *)
Theorem generate_image_reuses_loaded_model
        (self : MFLUXWrapper) (prompt model : string) (steps : Z) (guidance_scale : Q)
        (seed : option Z) (width height : Z) (negative_prompt : string) :
  MFLUX_AVAILABLE lib = true -> consistent self -> current_model self = Some model ->
  let r := generate_image lib self prompt model steps guidance_scale seed
             width height negative_prompt in
  existsb is_from_name (fst (fst r)) = false /\
  snd (fst r) = self /\
  exists quantize,
    flux_model self = Some (Flux1 model quantize) /\
    filter is_generate (fst (fst r))
    = [ GenerateImage (Flux1 model quantize) (seed_used lib seed) prompt
          {| num_inference_steps := steps; height := height; width := width;
             guidance := guidance_scale |} ].
Proof.
  intros Hlib Hself Hcurrent r. unfold r. clear r.
  assert (Hsame : other_model self model = false) by (apply other_model_false; exact Hcurrent).
  assert (Hheld : exists quantize, flux_model self = Some (Flux1 model quantize)).
  { unfold consistent in Hself. rewrite Hcurrent in Hself.
    destruct (flux_model self) as [[loaded quantize]|]; [|contradiction].
    destruct Hself as [E _]. subst loaded. exists quantize. reflexivity. }
  destruct Hheld as [quantize Hheld].
  generate_cases self model seed; try congruence;
    (assert (E : model_object = Flux1 model quantize) by congruence;
     subst model_object;
     split; [reflexivity|]; split; [reflexivity|];
     exists quantize; split; reflexivity).
Qed.

(** X18. [generate_image] raises in three ways only.  With the library not
    available it raises [MFLUX not available] before logging or touching
    anything.  When the model cannot be loaded it raises
    [Failed to load model: <model>] without any generation call, and the
    wrapper does not have that model as current.  Otherwise the exception
    comes from the generation itself: it is logged and raised again with its
    message unchanged, and the model stays loaded. *)
Theorem generate_image_raises_three_ways
        (self : MFLUXWrapper) (prompt model : string) (steps : Z) (guidance_scale : Q)
        (seed : option Z) (width height : Z) (negative_prompt : string) (e : string) :
  let r := generate_image lib self prompt model steps guidance_scale seed
             width height negative_prompt in
  snd r = Exc e ->
  (MFLUX_AVAILABLE lib = false /\ e = "MFLUX not available" /\
   fst (fst r) = [] /\ snd (fst r) = self) \/
  (MFLUX_AVAILABLE lib = true /\ e = "Failed to load model: " ++ model /\
   existsb is_generate (fst (fst r)) = false /\
   current_model (snd (fst r)) <> Some model) \/
  (MFLUX_AVAILABLE lib = true /\
   last (fst (fst r)) Randint = Log ("❌ AI generation failed: " ++ e) /\
   current_model (snd (fst r)) = Some model).
Proof.
  intro r. unfold r. clear r.
  generate_cases self model seed; intro Hraised; inversion Hraised; subst;
    try (left; repeat split; reflexivity);
    try (right; right; split; [reflexivity|]; split;
         [ rewrite ?app_assoc; apply last_last
         | first [ apply other_model_false; exact Hother
                 | destruct (load_model_result _ _ _ _ _ _ Hload) as (_ & _ & Hok & _);
                   rewrite (Hok eq_refl); reflexivity ] ]).
  right; left. split; [reflexivity|]. split; [reflexivity|].
  destruct (load_model_result _ _ _ _ _ _ Hload) as (Hnone & _ & _ & Hfailed).
  split.
  - rewrite existsb_app, Hnone. reflexivity.
  - destruct (Hfailed eq_refl) as [E|E]; subst self1.
    + intro Hcurrent. apply other_model_false in Hcurrent. congruence.
    + discriminate.
Qed.

(** X19. When [generate_image] returns, the image is the one the model
    object held by the wrapper generated for the prompt, the configuration
    made of [steps], [height], [width] and [guidance_scale], and the seed
    recorded in the metadata; that seed is the one given, or the random one
    when none was given; the metadata repeats the arguments; and the model
    asked for is the current one. *)
Theorem generate_image_returns_what_was_asked
        (self : MFLUXWrapper) (prompt model : string) (steps : Z) (guidance_scale : Q)
        (seed : option Z) (width height : Z) (negative_prompt : string)
        (generated : image) (md : metadata) :
  let r := generate_image lib self prompt model steps guidance_scale seed
             width height negative_prompt in
  snd r = Ok (generated, md) ->
  md = {| md_prompt := prompt;
          md_negative_prompt := negative_prompt;
          md_model := model;
          md_steps := steps;
          md_guidance_scale := guidance_scale;
          md_seed := seed_used lib seed;
          md_width := width;
          md_height := height;
          md_generation_time := (time_end lib - time_start lib)%Q;
          md_timestamp := int_of_float (time_stamp lib);
          md_real_ai := true |} /\
  current_model (snd (fst r)) = Some model /\
  exists model_object,
    flux_model (snd (fst r)) = Some model_object /\
    flux_generate lib model_object (seed_used lib seed) prompt
      {| num_inference_steps := steps; height := height; width := width;
         guidance := guidance_scale |}
    = inr generated.
Proof.
  intro r. unfold r. clear r.
  generate_cases self model seed; intro Hreturned; inversion Hreturned; subst;
    (split; [reflexivity|]; split;
     [ first [ apply other_model_false; exact Hother
             | destruct (load_model_result _ _ _ _ _ _ Hload) as (_ & _ & Hok & _);
               rewrite (Hok eq_refl); reflexivity ]
     | exists model_object; split; assumption ]).
Qed.

Lemma printed_app (l1 l2 : list event) :
  printed (l1 ++ l2) = (printed l1 ++ printed l2)%list.
Proof.
  induction l1 as [|e l1 IH]; [reflexivity|].
  destruct e; simpl; rewrite IH; reflexivity.
Qed.

(** [generate_image] writes nothing to standard output. *)
Lemma generate_image_prints_nothing
      (self : MFLUXWrapper) (prompt model : string) (steps : Z) (guidance_scale : Q)
      (seed : option Z) (width height : Z) (negative_prompt : string) :
  printed (fst (fst (generate_image lib self prompt model steps guidance_scale seed
                       width height negative_prompt))) = [].
Proof.
  generate_cases self model seed; try reflexivity;
    destruct (load_model_result _ _ _ _ _ _ Hload) as (_ & Hquiet & _);
    rewrite ?printed_app, Hquiet; reflexivity.
Qed.

(** X20. The command-line mode writes exactly one [result] to standard
    output, as its very last action, whatever the arguments and whatever
    the library does; the exit status is 0 exactly when that result is a
    success (with the image data and the metadata), and 1 otherwise. *)
Theorem command_line_prints_one_result (argv : list string) :
  let r := command_line_mode lib argv in
  exists result,
    printed (fst r) = [result] /\
    last (fst r) SavePng = PrintJson result /\
    (snd r = 0 <-> exists image_data md, result = JsonSuccess image_data md) /\
    (snd r = 0 \/ snd r = 1).
Proof.
  intro r. unfold r, command_line_mode. clear r.
  assert (Hfailed : forall e,
             exists result,
               printed [failed e] = [result] /\
               last [failed e] SavePng = PrintJson result /\
               (1 = 0 <-> exists image_data md, result = JsonSuccess image_data md) /\
               (1 = 0 \/ 1 = 1)).
  { intro e. eexists. split; [reflexivity|]. split; [reflexivity|].
    split; [|right; reflexivity].
    split; [discriminate|]. intros (d & m & H). discriminate H. }
  destruct (argument as_is argv 1 "A beautiful landscape") as [e|prompt]; [apply Hfailed|].
  destruct (argument as_is argv 2 "schnell") as [e|model]; [apply Hfailed|].
  destruct (argument (py_int lib) argv 3 4) as [e|steps]; [apply Hfailed|].
  destruct (argument (py_float lib) argv 4 7.5%Q) as [e|guidance_scale]; [apply Hfailed|].
  destruct (argument (some_int image lib) argv 5 None) as [e|seed]; [apply Hfailed|].
  destruct (argument (py_int lib) argv 6 512) as [e|width]; [apply Hfailed|].
  destruct (argument (py_int lib) argv 7 512) as [e|height]; [apply Hfailed|].
  clear Hfailed. unfold init.
  destruct (MFLUX_AVAILABLE lib); cbn [negb].
  - assert (Hquiet := generate_image_prints_nothing
                        {| flux_model := None; current_model := None |}
                        prompt model steps guidance_scale seed width height "").
    destruct (generate_image lib {| flux_model := None; current_model := None |}
                prompt model steps guidance_scale seed width height "")
      as [[generating wrapper] [[generated md]|e]].
    + cbn [fst snd] in *.
      destruct (png_base64 lib generated) as [e|image_data]; cbn [fst snd];
        eexists; (split; [rewrite !printed_app, Hquiet; reflexivity|]);
        (split; [change [SavePng; ?x] with ([SavePng] ++ [x])%list;
                 rewrite !app_assoc; apply last_last|]).
      * split; [|right; reflexivity].
        split; [discriminate|]. intros (d & m & H). discriminate H.
      * split; [|left; reflexivity].
        split; [|reflexivity]. intros _. eexists. eexists. reflexivity.
    + cbn [fst snd] in *. eexists.
      split; [rewrite !printed_app, Hquiet; reflexivity|].
      split; [rewrite !app_assoc; apply last_last|].
      split; [|right; reflexivity].
      split; [discriminate|]. intros (d & m & H). discriminate H.
  - cbn [fst snd]. eexists. split; [reflexivity|]. split; [reflexivity|].
    split; [|right; reflexivity].
    split; [discriminate|]. intros (d & m & H). discriminate H.
Qed.



End WrapperFacts.

Lemma load_model_refusal_has_no_effect_witness :
  Wrapper.load_model Wrapper.working_library Wrapper.schnell_loaded "sdxl" (Some 8)
  = ([Wrapper.Log "❌ Unknown model: sdxl"], Wrapper.schnell_loaded, false).
Proof.
  assert (Hunknown : ~ In "sdxl" (map fst Wrapper.available_models)).
  { simpl. intros [H|[H|[]]]; discriminate H. }
  destruct (load_model_refusal_has_no_effect string Wrapper.working_library
              Wrapper.schnell_loaded "sdxl" (Some 8) (or_intror Hunknown))
    as (Hret & Hstate & _).
  destruct (Wrapper.load_model Wrapper.working_library Wrapper.schnell_loaded "sdxl" (Some 8))
    as [[log self] loaded] eqn:E.
  cbn [fst snd] in Hret, Hstate. subst.
  vm_compute in E. inversion E. reflexivity.
Defined.

Lemma load_model_loads_or_resets_witness :
  snd (fst (Wrapper.load_model Wrapper.failing_library Wrapper.schnell_loaded "dev" (Some 8)))
  = {| Wrapper.flux_model := None; Wrapper.current_model := None |} /\
  snd (Wrapper.load_model Wrapper.failing_library Wrapper.schnell_loaded "dev" (Some 8))
  = false.
Proof.
  assert (Hknown : In "dev" (map fst Wrapper.available_models)) by (right; left; reflexivity).
  destruct (load_model_loads_or_resets string Wrapper.failing_library
              Wrapper.schnell_loaded "dev" (Some 8) eq_refl Hknown)
    as (_ & Hret & Hstate & _).
  split; assumption.
Defined.

Lemma wrapper_stays_consistent_witness :
  Wrapper.consistent
    (snd (fst (Wrapper.generate_image Wrapper.failing_library Wrapper.schnell_loaded
                 "A cute cat in a garden" "dev" 4 7.5%Q None 512 512 ""))).
Proof.
  destruct (wrapper_stays_consistent string Wrapper.failing_library Wrapper.schnell_loaded
              "dev" (Some 8) "A cute cat in a garden" "dev" 4 7.5%Q None 512 512 "")
    as [_ Hkept].
  apply Hkept. split; [reflexivity|]. left. reflexivity.
Defined.

Lemma generate_image_reuses_loaded_model_witness :
  existsb Wrapper.is_from_name
    (fst (fst (Wrapper.generate_image Wrapper.working_library Wrapper.schnell_loaded
                 "A cute cat in a garden" "schnell" 4 7.5%Q (Some 7) 512 512 "")))
  = false.
Proof.
  assert (Hself : Wrapper.consistent Wrapper.schnell_loaded).
  { split; [reflexivity|]. left. reflexivity. }
  destruct (generate_image_reuses_loaded_model string Wrapper.working_library
              Wrapper.schnell_loaded "A cute cat in a garden" "schnell" 4 7.5%Q (Some 7)
              512 512 "" eq_refl Hself eq_refl)
    as (Hquiet & _).
  exact Hquiet.
Defined.

Lemma generate_image_raises_three_ways_witness :
  Wrapper.current_model
    (snd (fst (Wrapper.generate_image Wrapper.failing_library Wrapper.schnell_loaded
                 "A cute cat in a garden" "schnell" 4 7.5%Q (Some 7) 512 512 "")))
  = Some "schnell".
Proof.
  destruct (generate_image_raises_three_ways string Wrapper.failing_library
              Wrapper.schnell_loaded "A cute cat in a garden" "schnell" 4 7.5%Q (Some 7)
              512 512 "" "out of memory" eq_refl)
    as [(H & _)|[(_ & H & _)|(_ & _ & Hcurrent)]].
  - discriminate H.
  - discriminate H.
  - exact Hcurrent.
Defined.

Lemma generate_image_returns_what_was_asked_witness :
  exists md,
    snd (Wrapper.generate_image Wrapper.working_library Wrapper.schnell_loaded
           "A cute cat in a garden" "dev" 4 7.5%Q None 512 512 "")
    = Wrapper.Ok ("image of A cute cat in a garden", md) /\
    Wrapper.md_seed md = 123456789 /\
    Wrapper.md_timestamp md = 1700000012.
Proof.
  eexists. split; [vm_compute; reflexivity|].
  match goal with
  | |- Wrapper.md_seed ?m = _ /\ _ =>
      destruct (generate_image_returns_what_was_asked string Wrapper.working_library
                  Wrapper.schnell_loaded "A cute cat in a garden" "dev" 4 7.5%Q None
                  512 512 "" "image of A cute cat in a garden" m
                  ltac:(vm_compute; reflexivity))
        as (Hmd & _)
  end.
  split; reflexivity.
Defined.

(** * Properties of the test scripts *)

(** X22. The download test passes exactly when the command-line tool
    completes with return code 0: a nonzero code, the 300-second time-out
    and any other exception all give [False] and exit status 1, and no
    exception escapes.  The command it runs is the one the supervisor
    builds (same tool, same options: no symlinks, resume, quiet), for the
    small test model and the test directory. *)
Theorem hf_download_test_passes_iff_zero
        (local_dir : string) (ran : HfDownloadTest.run_outcome) :
  let r := HfDownloadTest.main local_dir ran in
  (snd r = 0 <-> exists out err, ran = HfDownloadTest.Completed 0 out err) /\
  (snd r = 0 \/ snd r = 1) /\
  In (Popen (download_cmd HfDownloadTest.test_model local_dir)) (fst r) /\
  (existsb is_detail (stdout (fst r)) = true <->
   exists returncode out err,
     ran = HfDownloadTest.Completed returncode out err /\ returncode <> 0).
Proof.
  intro r. unfold r, HfDownloadTest.main, HfDownloadTest.test_hf_download. clear r.
  destruct ran as [returncode out err| |msg].
  - destruct (returncode =? 0) eqn:E; cbn [fst snd].
    + apply Z.eqb_eq in E. subst returncode.
      split; [split; [intros _; exists out, err; reflexivity|reflexivity]|].
      split; [left; reflexivity|]. split; [right; right; left; reflexivity|].
      split; [discriminate|]. intros (rc & o & e & H & Hrc). inversion H. congruence.
    + apply Z.eqb_neq in E.
      split; [split; [discriminate|intros (o & e & H); inversion H; congruence]|].
      split; [right; reflexivity|]. split; [right; right; left; reflexivity|].
      split; [intros _; exists returncode, out, err; split; [reflexivity|exact E]|].
      intros _. cbn [app stdout stdout_line existsb].
      rewrite is_detail_stdout. rewrite !orb_true_r. reflexivity.
  - cbn [fst snd].
    split; [split; [discriminate|intros (o & e & H); discriminate H]|].
    split; [right; reflexivity|]. split; [right; right; left; reflexivity|].
    split; [discriminate|]. intros (rc & o & e & H & _). discriminate H.
  - cbn [fst snd].
    split; [split; [discriminate|intros (o & e & H); discriminate H]|].
    split; [right; reflexivity|]. split; [right; right; left; reflexivity|].
    split; [|intros (rc & o & e & H & _); discriminate H].
    cbn [app stdout stdout_line existsb]. unfold is_detail.
    rewrite !prefix_cons.
    destruct (ascii_dec "S" "T") as [H|_]; [discriminate H|].
    destruct (ascii_dec "S" "R") as [H|_]; [discriminate H|].
    destruct (ascii_dec "S" (ascii_of_nat 226)) as [H|_]; [discriminate H|].
    discriminate.
Qed.

(** X23. The integration script always reports its model-loading test as
    passed, since [test_model_loading] ignores what [load_model] returns;
    its exit status is decided by the image test alone: 0 exactly when the
    library is available, ["schnell"] loads, the generation with 5 steps at
    512x512 returns and the PNG encoding goes through, and 1 otherwise.
    Each test builds its own wrapper, so a passing run loads the model
    twice. *)
Theorem integration_script_outcome (image : Type) (lib : Wrapper.library image) :
  let r := Integration.main lib in
  In (Integration.newline ++ "✅ Model loading test passed") (Integration.lines (fst r)) /\
  (snd r = 0 <->
   Wrapper.MFLUX_AVAILABLE lib = true /\
   Wrapper.from_name lib "schnell" (Some 8) = None /\
   exists generated image_data,
     Wrapper.flux_generate lib (Wrapper.Flux1 "schnell" (Some 8)) (Wrapper.randint lib)
       "A beautiful sunset over mountains"
       {| Wrapper.num_inference_steps := 5; Wrapper.height := 512;
          Wrapper.width := 512; Wrapper.guidance := 7.5 |}
     = inr generated /\
     Wrapper.png_base64 lib generated = inr image_data) /\
  (snd r = 0 \/ snd r = 1) /\
  (snd r = 0 ->
   Integration.loads (fst r) = [("schnell", Some 8); ("schnell", Some 8)]).
Proof.
  intro r. unfold r. clear r.
  unfold Integration.main, Integration.test_model_loading,
    Integration.test_image_generation, Wrapper.generate_image, Wrapper.load_model,
    Wrapper.init, Wrapper.other_model.
  cbn [Wrapper.current_model Wrapper.flux_model negb].
  change (dict_get Wrapper.available_models "schnell") with (Some "FLUX.1-schnell").
  destruct (Wrapper.MFLUX_AVAILABLE lib) eqn:Havailable; cbn [negb].
  - destruct (Wrapper.from_name lib "schnell" (Some 8)) as [e|] eqn:Hload;
      cbn [Wrapper.truthy Z.eqb negb fst snd app Wrapper.flux_model].
    + split; [cbn; tauto|]. split; [|split; [right; reflexivity|discriminate]].
      split; [discriminate|]. intros (_ & H & _). discriminate H.
    + destruct (Wrapper.flux_generate lib (Wrapper.Flux1 "schnell" (Some 8))
                  (Wrapper.randint lib) "A beautiful sunset over mountains"
                  {| Wrapper.num_inference_steps := 5; Wrapper.height := 512;
                     Wrapper.width := 512; Wrapper.guidance := 7.5 |})
        as [e|generated] eqn:Hgenerate; cbn [negb fst snd].
      * split; [cbn; tauto|]. split; [|split; [right; reflexivity|discriminate]].
        split; [discriminate|]. intros (_ & _ & g & d & H & _). discriminate H.
      * destruct (Wrapper.png_base64 lib generated) as [e|image_data] eqn:Hpng;
          cbn [negb fst snd].
        { split; [cbn; tauto|]. split; [|split; [right; reflexivity|discriminate]].
          split; [discriminate|]. intros (_ & _ & g & d & Hg & Hd).
          inversion Hg. subst g. congruence. }
        { split; [cbn; tauto|]. split; [|split; [left; reflexivity|]].
          - split; [|reflexivity]. intros _.
            split; [reflexivity|]. split; [reflexivity|].
            exists generated, image_data. split; [reflexivity|exact Hpng].
          - intros _. reflexivity. }
  - split; [cbn; tauto|]. split; [|split; [right; reflexivity|discriminate]].
    split; [discriminate|]. intros (H & _). discriminate H.
Qed.

Lemma integration_script_outcome_witness :
  snd (Integration.main Wrapper.working_library) = 0 /\
  Integration.loads (fst (Integration.main Wrapper.working_library))
  = [("schnell", Some 8); ("schnell", Some 8)].
Proof.
  destruct (integration_script_outcome string Wrapper.working_library)
    as (_ & Hexit & _ & Hloads).
  assert (H0 : snd (Integration.main Wrapper.working_library) = 0).
  { apply Hexit. split; [reflexivity|]. split; [reflexivity|].
    exists "image of A beautiful sunset over mountains", "iVBORw0KGgo=".
    split; reflexivity. }
  split; [exact H0|exact (Hloads H0)].
Defined.

(** * Further properties of the supervisor *)

Lemma progress_lines_app (l1 l2 : list event) :
  progress_lines (l1 ++ l2) = (progress_lines l1 ++ progress_lines l2)%list.
Proof.
  unfold progress_lines. rewrite stdout_app. apply filter_app.
Qed.

Lemma progress_lines_sleeps (n : nat) : progress_lines (repeat (Sleep 5) n) = [].
Proof.
  unfold progress_lines. rewrite stdout_sleeps. reflexivity.
Qed.

(** X24. The supervisor's own progress lines are the fixed sequence
    [PROGRESS: 0.05], [PROGRESS: 0.1], [PROGRESS: 0.2], cut short where the
    run stops, and [PROGRESS: 1.0] is printed at the end of it exactly when
    the run returns [True]: a consumer that reads 1.0 knows the download
    succeeded. *)
Theorem progress_one_means_success (w : world) (fuel : nat) (model_name : string) :
  let r := download_model_robust w fuel model_name in
  (snd r = Done true <->
   progress_lines (fst r)
   = ["PROGRESS: 0.05"; "PROGRESS: 0.1"; "PROGRESS: 0.2"; "PROGRESS: 1.0"]) /\
  (snd r <> Done true ->
   progress_lines (fst r) = [] \/
   progress_lines (fst r) = ["PROGRESS: 0.05"] \/
   progress_lines (fst r) = ["PROGRESS: 0.05"; "PROGRESS: 0.1"; "PROGRESS: 0.2"]).
Proof.
  intro r. unfold r. clear r.
  destruct (download_model_robust_shape w fuel model_name) as
    [msg Hmk|Hmk Hmap|hm msg Hmk Hmap Hth|hm msg Hmk Hmap Hth Hpo
     |hm Hsp Hmap Hwait|hm k Hsp Hmap Hwait Hk Hp Hc|hm k Hsp Hmap Hwait Hk Hp
     |hm k rc msg Hsp Hmap Hwait Hk Hp Hrc Hcomm|hm k rc out err Hsp Hmap Hwait Hk Hp Hrc Hcomm];
    cbn [fst snd]; rewrite ?progress_lines_app, ?progress_lines_sleeps;
    (split; [split; intro H; first [discriminate H|reflexivity]|]);
    intro Hnot; try (exfalso; apply Hnot; reflexivity);
    first [ left; reflexivity | right; left; reflexivity | right; right; reflexivity ].
Qed.

Lemma progress_one_means_success_witness :
  progress_lines (fst (download_model_robust no_cli_world 10 "dev"))
  = ["PROGRESS: 0.05"; "PROGRESS: 0.1"; "PROGRESS: 0.2"].
Proof.
  destruct (progress_one_means_success no_cli_world 10 "dev") as [_ Hcut].
  assert (Hnot : snd (download_model_robust no_cli_world 10 "dev") <> Done true)
    by (vm_compute; discriminate).
  destruct (Hcut Hnot) as [H|[H|H]]; [discriminate H|discriminate H|exact H].
Defined.

(** X25. The comparison with the ceiling is strict: with a clock that
    advances by exactly the 5 seconds slept, a process that never exits is
    still waited for at the test made 7200 seconds after the start, and is
    terminated at the next one, after 1441 sleeps, 7205 seconds in all. *)
Theorem hanging_process_is_stopped_at_7205
        (w : world) (fuel : nat) (model_name : string) :
  spawns w ->
  model_name = "schnell" \/ model_name = "dev" ->
  (forall i, poll w i = None) ->
  (forall i, (clock w i == start_time w + 5 * inject_Z (Z.of_nat i))%Q) ->
  (1442 <= fuel)%nat ->
  ceiling_exceeded w 1440 = false /\
  ceiling_exceeded w 1441 = true /\
  snd (download_model_robust w fuel model_name) = Done false /\
  terminated (fst (download_model_robust w fuel model_name)) = true /\
  (slept (fst (download_model_robust w fuel model_name)) == 7205)%Q.
Proof.
  intros Hspawn Hknown Hpoll Hclock Hfuel.
  assert (Hceil : forall i, ceiling_exceeded w i = Nat.ltb 1440 i).
  { intro i. unfold ceiling_exceeded, timeout.
    pose proof (Hclock i) as Hi.
    destruct (Nat.ltb 1440 i) eqn:E.
    - apply Nat.ltb_lt in E. apply Qltb_true.
      assert (Hq : (inject_Z 1441 <= inject_Z (Z.of_nat i))%Q)
        by (rewrite <- Zle_Qle; lia).
      change (inject_Z 1441) with 1441%Q in Hq.
      revert Hi Hq. generalize (inject_Z (Z.of_nat i)), (clock w i), (start_time w).
      intros x c s Hi Hq. rewrite Hi. lra.
    - apply Nat.ltb_ge in E. apply Qltb_false.
      assert (Hq : (inject_Z (Z.of_nat i) <= inject_Z 1440)%Q)
        by (rewrite <- Zle_Qle; lia).
      change (inject_Z 1440) with 1440%Q in Hq.
      revert Hi Hq. generalize (inject_Z (Z.of_nat i)), (clock w i), (start_time w).
      intros x c s Hi Hq. rewrite Hi. lra. }
  assert (Hwait : waits_until w 1441).
  { intros i Hi. split; [apply Hpoll|]. rewrite Hceil. apply Nat.ltb_ge. lia. }
  destruct (known_model_resolves model_name Hknown) as [hm Hmap].
  split; [rewrite Hceil; reflexivity|]. split; [rewrite Hceil; reflexivity|].
  rewrite (download_timed_out w fuel model_name hm 1441 Hspawn Hmap Hwait
             (Hpoll _) ltac:(rewrite Hceil; reflexivity) ltac:(lia)).
  cbn [fst snd]. split; [reflexivity|]. split.
  - unfold terminated. rewrite existsb_app. apply orb_true_r.
  - rewrite !slept_app.
    assert (Hsleeps : forall n, (slept (repeat (Sleep 5) n) == 5 * inject_Z (Z.of_nat n))%Q).
    { induction n as [|n IH]; [reflexivity|].
      cbn [repeat slept]. rewrite IH, Nat2Z.inj_succ. unfold Z.succ.
      rewrite inject_Z_plus. change (inject_Z 1) with 1%Q. ring. }
    rewrite Hsleeps. reflexivity.
Qed.

Lemma hanging_process_is_stopped_at_7205_witness :
  snd (download_model_robust hanging_world 1442 "dev") = Done false /\
  (slept (fst (download_model_robust hanging_world 1442 "dev")) == 7205)%Q.
Proof.
  assert (Hspawn : spawns hanging_world) by (repeat split).
  assert (Hclock : forall i,
             (clock hanging_world i
              == start_time hanging_world + 5 * inject_Z (Z.of_nat i))%Q)
    by (intro i; reflexivity).
  destruct (hanging_process_is_stopped_at_7205 hanging_world 1442 "dev"
              Hspawn (or_intror eq_refl) (fun _ => eq_refl) Hclock (Nat.le_refl 1442))
    as (_ & _ & Hret & _ & Hslept).
  split; assumption.
Defined.
